(** * cpu-boost: input-triggered CPU frequency boost (drivers/cpufreq/cpu-boost.c)

    A shallow embedding of the driver: the per-CPU [sync_info] records, the
    CPUFREQ_ADJUST notifier, the two work items ([input_boost_work] and the
    delayed [input_boost_rem]) and the entry points that queue them.

    Kernel services the driver calls are modelled next to the driver code:
    the work-queue pending bits are fields of the state, and every call into
    the host kernel is appended to a log, so that "policy is re-evaluated for
    each online CPU" is a statement about that log. *)

From stdpp Require Import base list numbers.
From stdpp Require Import gmap strings.

Local Open Scope Z_scope.

(** ** Constants of the source file *)

Definition IB_FREQ_MIN : Z := 1113600.
Definition IB_FREQ_MAX : Z := 1113600.
Definition IB_DURATION : Z := 150.
Definition MDSS_TIMEOUT : Z := 5000.

(** ** Constants of the kernel headers *)

(** Modelled from the spec: [UINT_MAX] (linux/kernel.h) is not among the
    sources; the "unbounded boost" sentinel, the "maximum representable value"
    of an [unsigned int]. *)
Definition UINT_MAX : Z := 4294967295.

(** Modelled from the spec: the notifier event and return codes
    (linux/cpufreq.h, linux/notifier.h) and the error number are not among the
    sources.  Only [val == CPUFREQ_ADJUST] and a failure code being non-zero
    matter below. *)
Definition CPUFREQ_ADJUST : Z := 0.
Definition NOTIFY_OK : Z := 1.
Definition EFAULT : Z := 14.

(** [unsigned int] values. *)
Definition is_uint (z : Z) : Prop := 0 <= z <= UINT_MAX.

(** [unsigned long] arithmetic on the 64-bit target, and the signed view used
    by the jiffies comparison macros. *)
Definition BITS_PER_LONG : Z := 64.
Definition ulong (z : Z) : Z := z mod 2 ^ BITS_PER_LONG.
Definition long (z : Z) : Z :=
  let u := ulong z in
  if u <? 2 ^ (BITS_PER_LONG - 1) then u else u - 2 ^ BITS_PER_LONG.

(** Modelled from the spec: [time_after] is a macro of linux/jiffies.h, which
    is not among the sources; it decides the spec's "older than a fixed
    staleness window".  It is the wrap-safe comparison of the header,
    [(long)((b) - (a)) < 0]. *)
Definition time_after (a b : Z) : bool := long (b - a) <? 0.

(** ** Data *)

(** [struct cpu_sync]. *)
Record cpu_sync := mk_cpu_sync {
  cpu : nat;
  input_boost_min : Z
}.

(** The fields of [struct cpufreq_policy] the notifier touches. *)
Record cpufreq_policy := mk_policy {
  policy_cpu : nat;
  policy_min : Z;
  policy_max : Z
}.

(** Modelled from the spec: the kernel services behind the calls below are not
    among the sources.  Each call is recorded, in the order the driver makes
    it; [Call_cpufreq_update_policy i] is the spec's "re-evaluate policy for
    core X now". *)
Inductive call :=
| Call_cpufreq_update_policy (i : nat)
| Call_cancel_delayed_work_sync
| Call_queue_delayed_work (delay : Z)
| Call_queue_work.

(** The file's globals.  [sync_info] is the per-CPU variable, one record per
    possible CPU, indexed by CPU number.  [input_boost_work] is the pending
    bit of the work item of that name; [input_boost_rem] is [Some t] while the
    delayed work is pending with its timer set to expire at jiffy [t]. *)
Record state := mk_state {
  sync_info : list cpu_sync;
  max_boost_active : bool;
  last_input_time : Z;
  st_cpu_bias : bool;
  input_boost_work : bool;
  input_boost_rem : option Z;
  calls : list call
}.

(** What the driver reads from its surroundings at the time of a call. *)
Record env := mk_env {
  jiffies : Z;
  cpu_online_mask : list nat
}.

Definition set_sync_info (l : list cpu_sync) (st : state) : state :=
  mk_state l (max_boost_active st) (last_input_time st) (st_cpu_bias st)
           (input_boost_work st) (input_boost_rem st) (calls st).
Definition set_max_boost_active (b : bool) (st : state) : state :=
  mk_state (sync_info st) b (last_input_time st) (st_cpu_bias st)
           (input_boost_work st) (input_boost_rem st) (calls st).
Definition set_last_input_time (t : Z) (st : state) : state :=
  mk_state (sync_info st) (max_boost_active st) t (st_cpu_bias st)
           (input_boost_work st) (input_boost_rem st) (calls st).
Definition set_st_cpu_bias (b : bool) (st : state) : state :=
  mk_state (sync_info st) (max_boost_active st) (last_input_time st) b
           (input_boost_work st) (input_boost_rem st) (calls st).
Definition set_input_boost_work (b : bool) (st : state) : state :=
  mk_state (sync_info st) (max_boost_active st) (last_input_time st)
           (st_cpu_bias st) b (input_boost_rem st) (calls st).
Definition set_input_boost_rem (o : option Z) (st : state) : state :=
  mk_state (sync_info st) (max_boost_active st) (last_input_time st)
           (st_cpu_bias st) (input_boost_work st) o (calls st).
Definition log (c : call) (st : state) : state :=
  mk_state (sync_info st) (max_boost_active st) (last_input_time st)
           (st_cpu_bias st) (input_boost_work st) (input_boost_rem st)
           (calls st ++ [c]).

(** ** Kernel services, as the driver uses them *)

(** Modelled from the spec: [cpufreq_verify_within_limits] is an inline helper
    of linux/cpufreq.h, which is not part of the sources at hand; the spec has
    it "clamp the proposed minimum upward to at least effective_min, never
    exceeding max".  The header's five comparisons are kept in their order. *)
Definition cpufreq_verify_within_limits (p : cpufreq_policy) (min max : Z)
  : cpufreq_policy :=
  let p := if policy_min p <? min then mk_policy (policy_cpu p) min (policy_max p) else p in
  let p := if policy_max p <? min then mk_policy (policy_cpu p) (policy_min p) min else p in
  let p := if policy_min p >? max then mk_policy (policy_cpu p) max (policy_max p) else p in
  let p := if policy_max p >? max then mk_policy (policy_cpu p) (policy_min p) max else p in
  if policy_min p >? policy_max p
  then mk_policy (policy_cpu p) (policy_max p) (policy_max p) else p.

(** Modelled from the spec: [work_pending] (linux/workqueue.h) is not among the
    sources; it reads the spec's "pending_activation: whether an activation
    task is currently queued", here for [&input_boost_work]. *)
Definition work_pending (st : state) : bool := input_boost_work st.

(** Modelled from the spec: [queue_work] (kernel/workqueue.c) is not among the
    sources; "at most one weak-boost activation in flight at a time": queueing
    [&input_boost_work] sets its pending bit and does nothing when the bit is
    set already. *)
Definition queue_work (st : state) : state :=
  let st := log Call_queue_work st in
  if input_boost_work st then st else set_input_boost_work true st.

(** Modelled from the spec: [cancel_delayed_work_sync] (kernel/workqueue.c) is
    not among the sources; "cancel any pending expiry task", here for
    [&input_boost_rem]: afterwards the item is not pending. *)
Definition cancel_delayed_work_sync (st : state) : state :=
  set_input_boost_rem None (log Call_cancel_delayed_work_sync st).

(** Modelled from the spec: [queue_delayed_work] (kernel/workqueue.c) is not
    among the sources; "schedule an expiry task after a fixed boost duration":
    queueing [&input_boost_rem] arms its timer for [jiffies + delay], in
    [unsigned long] arithmetic, and does nothing when the item is pending
    already. *)
Definition queue_delayed_work (e : env) (delay : Z) (st : state) : state :=
  let st := log (Call_queue_delayed_work delay) st in
  match input_boost_rem st with
  | Some _ => st
  | None => set_input_boost_rem (Some (ulong (jiffies e + delay))) st
  end.

(** Modelled from the spec: [for_each_possible_cpu] (linux/cpumask.h) is not
    among the sources; "core identifiers are small dense integers known at
    startup": the possible CPUs are [0 .. nr - 1], visited in that order. *)
Definition for_each_possible_cpu {A} (nr : nat) (body : nat -> A -> A) (a : A) : A :=
  foldl (fun a i => body i a) a (seq 0 nr).

(** Modelled from the spec: [for_each_online_cpu] (linux/cpumask.h) is not
    among the sources; "for each online core, yield its identifier". *)
Definition for_each_online_cpu {A} (e : env) (body : nat -> A -> A) (a : A) : A :=
  foldl (fun a i => body i a) a (cpu_online_mask e).

Definition nr_cpus (st : state) : nat := length (sync_info st).

(** [per_cpu(sync_info, i).input_boost_min = v]. *)
Definition write_input_boost_min (i : nat) (v : Z) (st : state) : state :=
  set_sync_info
    (alter (fun s => mk_cpu_sync (cpu s) v) i (sync_info st)) st.

(** ** The driver *)

Definition boost_adjust_notify (st : state) (val : Z) (policy : cpufreq_policy)
  : option (Z * cpufreq_policy) :=
  match sync_info st !! policy_cpu policy with
  | None => None
  | Some s =>
    let ib_min := input_boost_min s in
    if val =? CPUFREQ_ADJUST then
      if ib_min =? 0 then Some (NOTIFY_OK, policy)
      else
        let ib_min :=
          Z.min (if input_boost_min s =? UINT_MAX
                 then policy_max policy else input_boost_min s)
                (policy_max policy) in
        Some (NOTIFY_OK, cpufreq_verify_within_limits policy ib_min UINT_MAX)
    else Some (NOTIFY_OK, policy)
  end.

Definition update_policy_online (e : env) (st : state) : state :=
  for_each_online_cpu e (fun i => log (Call_cpufreq_update_policy i)) st.

Definition do_input_boost_rem (e : env) (st : state) : state :=
  let st := if st_cpu_bias st then set_st_cpu_bias false st else st in
  let st := for_each_possible_cpu (nr_cpus st)
              (fun i => write_input_boost_min i 0) st in
  let st := update_policy_online e st in
  if max_boost_active st then set_max_boost_active false st else st.

Section Jiffies.

(** [msecs_to_jiffies] depends on the tick rate the kernel is built with. *)
Variable msecs_to_jiffies : Z -> Z.

Definition do_input_boost (e : env) (st : state) : state :=
  if max_boost_active st then st
  else
    let st := cancel_delayed_work_sync st in
    let st := for_each_possible_cpu (nr_cpus st)
                (fun i => if (i <? 4)%nat
                          then write_input_boost_min i IB_FREQ_MIN
                          else write_input_boost_min i IB_FREQ_MAX) st in
    let st := update_policy_online e st in
    queue_delayed_work e (msecs_to_jiffies IB_DURATION) st.

Definition mdss_boost_kick (e : env) (st : state) : state :=
  if work_pending st
     || time_after (jiffies e)
          (ulong (last_input_time st + msecs_to_jiffies MDSS_TIMEOUT))
  then st
  else
    let st := if negb (st_cpu_bias st) then set_st_cpu_bias true st else st in
    queue_work st.

Definition do_input_boost_max (e : env) (duration_ms : Z) (st : state) : state :=
  let st := cancel_delayed_work_sync st in
  let st := for_each_possible_cpu (nr_cpus st)
              (fun i => write_input_boost_min i UINT_MAX) st in
  let st := update_policy_online e st in
  let st := queue_delayed_work e (msecs_to_jiffies duration_ms) st in
  set_max_boost_active true st.

Definition input_boost_max_kick (e : env) (duration_ms : Z) (st : state) : state :=
  let st := if negb (st_cpu_bias st) then set_st_cpu_bias true st else st in
  do_input_boost_max e duration_ms st.

End Jiffies.

Definition cpuboost_input_event (e : env) (st : state) : state :=
  let st := set_last_input_time (jiffies e) st in
  if work_pending st then st
  else
    let st := if negb (st_cpu_bias st) then set_st_cpu_bias true st else st in
    queue_work st.

(** ** The worker thread *)

(** Modelled from the spec: the worker of [cpu_boost_wq] (kernel/workqueue.c)
    is not among the sources; "a single ordered task queue (one logical
    worker) executes activation and expiry tasks one at a time".  The worker
    clears the pending bit of an item and then calls the function the item was
    initialised with, [do_input_boost] for [input_boost_work]. *)
Definition run_input_boost_work (msecs_to_jiffies : Z -> Z) (e : env) (st : state)
  : state :=
  do_input_boost msecs_to_jiffies e (set_input_boost_work false st).

(** Modelled from the spec: the same worker running the expiry item, "the
    scheduled expiry task fires": the item is no longer pending when
    [do_input_boost_rem] is called. *)
Definition run_input_boost_rem (e : env) (st : state) : state :=
  do_input_boost_rem e (set_input_boost_rem None st).

(** ** Initialisation *)

(** What [cpu_boost_init] sets up outside the boost state: the work queue
    pointer (non-NULL or not) and the two registrations. *)
Record registry := mk_registry {
  cpu_boost_wq : bool;
  boost_adjust_nb_registered : bool;
  cpuboost_input_handler_registered : bool
}.

(** Modelled from the spec: [alloc_workqueue], [cpufreq_register_notifier] and
    [input_register_handler] are not among the sources; "task queue cannot be
    created, event-source registration fails": their outcomes are inputs of
    the initialisation, a registration being in effect when its call returned
    0. *)
Record init_env := mk_init_env {
  alloc_workqueue_ok : bool;
  cpufreq_register_notifier_ret : Z;
  input_register_handler_ret : Z
}.

(** [s->cpu = cpu]. *)
Definition write_cpu (i : nat) (st : state) : state :=
  set_sync_info
    (alter (fun s => mk_cpu_sync i (input_boost_min s)) i (sync_info st)) st.

Definition cpu_boost_init (ie : init_env) (r : registry) (st : state)
  : Z * registry * state :=
  let r := mk_registry (alloc_workqueue_ok ie) (boost_adjust_nb_registered r)
             (cpuboost_input_handler_registered r) in
  if negb (cpu_boost_wq r) then (- EFAULT, r, st)
  else
    let st := set_input_boost_work false st in
    let st := set_input_boost_rem None st in
    let st := for_each_possible_cpu (nr_cpus st) write_cpu st in
    let r := mk_registry (cpu_boost_wq r)
               (boost_adjust_nb_registered r
                || (cpufreq_register_notifier_ret ie =? 0))
               (cpuboost_input_handler_registered r) in
    let ret := input_register_handler_ret ie in
    let r := mk_registry (cpu_boost_wq r) (boost_adjust_nb_registered r)
               (cpuboost_input_handler_registered r || (ret =? 0)) in
    (ret, r, st).

(** Before [cpu_boost_init]: statics are zero, nothing is registered.
    [st_cpu_bias] is defined elsewhere. *)
Definition boot_registry : registry := mk_registry false false false.
Definition boot_state (nr : nat) (bias : bool) : state :=
  mk_state (replicate nr (mk_cpu_sync 0 0)) false 0 bias false None [].

(** IDLE: no floor on any CPU, nothing pending; the state a successful
    [cpu_boost_init] leaves behind. *)
Definition idle_state (nr : nat) (bias : bool) : state :=
  mk_state (imap (fun i _ => mk_cpu_sync i 0) (sync_info (boot_state nr bias)))
           false 0 bias false None [].

(** ** Transition systems *)

Section Steps.

Variable msecs_to_jiffies : Z -> Z.

(** The three routines that write the boost state, each as one step. *)
Inductive boost_step : state -> state -> Prop :=
| boost_step_do_input_boost e st :
    boost_step st (run_input_boost_work msecs_to_jiffies e st)
| boost_step_do_input_boost_max e d st :
    boost_step st (do_input_boost_max msecs_to_jiffies e d st)
| boost_step_do_input_boost_rem e st :
    boost_step st (run_input_boost_rem e st).

(** Every way into the driver after initialisation. *)
Inductive entry :=
| Input_event
| Mdss_boost_kick
| Input_boost_max_kick (duration_ms : Z)
| Work_input_boost
| Work_input_boost_rem.

Definition exec (e : env) (en : entry) (st : state) : state :=
  match en with
  | Input_event => cpuboost_input_event e st
  | Mdss_boost_kick => mdss_boost_kick msecs_to_jiffies e st
  | Input_boost_max_kick d => input_boost_max_kick msecs_to_jiffies e d st
  | Work_input_boost => run_input_boost_work msecs_to_jiffies e st
  | Work_input_boost_rem => run_input_boost_rem e st
  end.

Definition run (l : list (env * entry)) (st : state) : state :=
  foldl (fun st x => exec (fst x) (snd x) st) st l.

Inductive boost_reachable (nr : nat) (bias : bool) : state -> Prop :=
| boost_reachable_idle : boost_reachable nr bias (idle_state nr bias)
| boost_reachable_step st st' :
    boost_reachable nr bias st -> boost_step st st' ->
    boost_reachable nr bias st'.

(** The time of the last input event of a run; [t0] when there is none. *)
Definition last_input_event (t0 : Z) (l : list (env * entry)) : Z :=
  foldl (fun t x => match snd x with
                    | Input_event => jiffies (fst x)
                    | _ => t
                    end) t0 l.

End Steps.

(** ** State predicates of the spec *)

Definition expiry_pending (st : state) : Prop := is_Some (input_boost_rem st).

Definition some_floor_set (st : state) : Prop :=
  Exists (fun s => input_boost_min s <> 0) (sync_info st).

Definition all_floors (v : Z) (st : state) : Prop :=
  Forall (fun s => input_boost_min s = v) (sync_info st).

Definition boost_tier (v : Z) : Prop :=
  v = 0 \/ v = IB_FREQ_MIN \/ v = IB_FREQ_MAX \/ v = UINT_MAX.

(** The floor a weak activation writes to CPU [i]. *)
Definition weak_tier (i : nat) : Z :=
  if (i <? 4)%nat then IB_FREQ_MIN else IB_FREQ_MAX.

(** The floor the hook enforces for a CPU whose [input_boost_min] is [floor]
    when the proposed maximum is [max]. *)
Definition effective_min (floor max : Z) : Z :=
  Z.min (if floor =? UINT_MAX then max else floor) max.

(** The per-CPU array after a loop that writes the floor [f i] to every
    possible CPU [i]. *)
Definition with_floors (f : nat -> Z) (l : list cpu_sync) : list cpu_sync :=
  imap (fun i s => mk_cpu_sync (cpu s) (f i)) l.

(** What a strong boost of [d] ms requested in [e] leaves behind, [st] being
    the state before and [st'] the state after. *)
Definition strong_boost_effect (msecs_to_jiffies : Z -> Z) (e : env) (d : Z)
           (st st' : state) : Prop :=
  all_floors UINT_MAX st'
  /\ length (sync_info st') = length (sync_info st)
  /\ cpu <$> sync_info st' = cpu <$> sync_info st
  /\ input_boost_rem st' = Some (ulong (jiffies e + msecs_to_jiffies d))
  /\ max_boost_active st' = true
  /\ calls st'
     = calls st ++ [Call_cancel_delayed_work_sync]
         ++ (Call_cpufreq_update_policy <$> cpu_online_mask e)
         ++ [Call_queue_delayed_work (msecs_to_jiffies d)]
  /\ input_boost_work st' = input_boost_work st
  /\ last_input_time st' = last_input_time st.

(** What the expiry routine leaves behind. *)
Definition expiry_effect (e : env) (st st' : state) : Prop :=
  all_floors 0 st'
  /\ length (sync_info st') = length (sync_info st)
  /\ cpu <$> sync_info st' = cpu <$> sync_info st
  /\ max_boost_active st' = false
  /\ calls st'
     = calls st ++ (Call_cpufreq_update_policy <$> cpu_online_mask e)
  /\ input_boost_work st' = input_boost_work st
  /\ last_input_time st' = last_input_time st.

(** The invariant the spec states for the coordinator. *)
Definition boost_invariant (st : state) : Prop :=
  (expiry_pending st <-> some_floor_set st)
  /\ (max_boost_active st = true -> all_floors UINT_MAX st).

(** Every floor is one of the four values the driver writes. *)
Definition all_tiers (st : state) : Prop :=
  Forall (fun s => boost_tier (input_boost_min s)) (sync_info st).

(** ** Input devices *)

(** Modelled from the spec: [struct input_handle] (linux/input.h) is not among
    the sources; the three fields the driver sets. *)
Record input_handle := mk_input_handle {
  handle_dev : nat;
  handle_handler : nat;
  handle_name : string
}.

(** Modelled from the spec: the allocator and the input core
    (drivers/input/input.c) are not among the sources; "this system registers
    interest in motion/touch/key event classes and receives a callback per
    matching event".  The allocator's objects are kept by address, address 0
    being NULL.  The input core keeps its own books, apart from the memory of
    the handles: the handles on the lists of their device and handler, and the
    handles through which a device is open.  Freeing a handle does not take
    it off these books. *)
Record input_core := mk_input_core {
  allocated : gmap nat input_handle;
  h_list : gset nat;
  open_handles : gset nat
}.

(** The books of the input core mention live handles only, and a device is
    open only through a registered handle. *)
Definition input_core_wf (ic : input_core) : Prop :=
  (forall p, p ∈ h_list ic -> is_Some (allocated ic !! p))
  /\ open_handles ic ⊆ h_list ic.

Definition ENOMEM : Z := 12.

(** Outcomes of the three kernel calls of [cpuboost_input_connect]. *)
Record connect_env := mk_connect_env {
  kzalloc_ret : nat;
  input_register_handle_ret : Z;
  input_open_device_ret : Z
}.

(** Modelled from the spec: [kzalloc] (linux/slab.h) is not among the sources;
    it returns NULL or the address of a zeroed object. *)
Definition kzalloc (p : nat) (ic : input_core) : input_core :=
  if (p =? 0)%nat then ic
  else mk_input_core (<[p := mk_input_handle 0 0 ""]> (allocated ic))
                     (h_list ic) (open_handles ic).

(** Modelled from the spec: [kfree] (linux/slab.h) is not among the sources;
    it gives the memory back and knows nothing of the input core. *)
Definition kfree (p : nat) (ic : input_core) : input_core :=
  mk_input_core (delete p (allocated ic)) (h_list ic) (open_handles ic).

(** Modelled from the spec: [input_register_handle] (drivers/input/input.c) is
    not among the sources; the handle is put on the lists when the call
    returns 0. *)
Definition input_register_handle (ret : Z) (p : nat) (ic : input_core)
  : input_core :=
  if ret =? 0
  then mk_input_core (allocated ic) ({[p]} ∪ h_list ic) (open_handles ic)
  else ic.

(** Modelled from the spec: [input_unregister_handle] (drivers/input/input.c)
    is not among the sources; the handle is taken off the lists. *)
Definition input_unregister_handle (p : nat) (ic : input_core) : input_core :=
  mk_input_core (allocated ic) (h_list ic ∖ {[p]}) (open_handles ic).

(** Modelled from the spec: [input_open_device] (drivers/input/input.c) is not
    among the sources; the device is open through the handle when the call
    returns 0. *)
Definition input_open_device (ret : Z) (p : nat) (ic : input_core)
  : input_core :=
  if ret =? 0
  then mk_input_core (allocated ic) (h_list ic) ({[p]} ∪ open_handles ic)
  else ic.

(** Modelled from the spec: [input_close_device] (drivers/input/input.c) is not
    among the sources. *)
Definition input_close_device (p : nat) (ic : input_core) : input_core :=
  mk_input_core (allocated ic) (h_list ic) (open_handles ic ∖ {[p]}).

(** [handle->dev = dev; handle->handler = handler; handle->name = ...]. *)
Definition write_handle (p dev handler : nat) (name : string)
           (ic : input_core) : input_core :=
  mk_input_core
    (alter (fun _ => mk_input_handle dev handler name) p (allocated ic))
    (h_list ic) (open_handles ic).

Definition cpuboost_input_connect (ce : connect_env) (handler dev : nat)
           (ic : input_core) : Z * input_core :=
  let handle := kzalloc_ret ce in
  let ic := kzalloc handle ic in
  if (handle =? 0)%nat then (- ENOMEM, ic)
  else
    let ic := write_handle handle dev handler "cpufreq" ic in
    let error := input_register_handle_ret ce in
    let ic := input_register_handle error handle ic in
    if negb (error =? 0) then (error, kfree handle ic)
    else
      let error := input_open_device_ret ce in
      let ic := input_open_device error handle ic in
      if negb (error =? 0)
      then (error, kfree handle (input_unregister_handle handle ic))
      else (0, ic).

Definition cpuboost_input_disconnect (handle : nat) (ic : input_core)
  : input_core :=
  kfree handle (input_unregister_handle handle (input_close_device handle ic)).

(** The input core before any device is connected. *)
Definition no_devices : input_core := mk_input_core ∅ ∅ ∅.

(** ** Further state predicates *)

(** IDLE as a predicate: no floor, no expiry pending, no strong boost. *)
Definition idle (st : state) : Prop :=
  all_floors 0 st /\ input_boost_rem st = None /\ max_boost_active st = false.

(** What a weak activation requested in [e] leaves behind. *)
Definition weak_boost_effect (msecs_to_jiffies : Z -> Z) (e : env)
           (st st' : state) : Prop :=
  input_boost_rem st'
  = Some (ulong (jiffies e + msecs_to_jiffies IB_DURATION))
  /\ max_boost_active st' = false
  /\ calls st'
     = calls st ++ [Call_cancel_delayed_work_sync]
         ++ (Call_cpufreq_update_policy <$> cpu_online_mask e)
         ++ [Call_queue_delayed_work (msecs_to_jiffies IB_DURATION)]
  /\ (forall i s, sync_info st !! i = Some s ->
                  sync_info st' !! i = Some (mk_cpu_sync (cpu s) (weak_tier i)))
  /\ length (sync_info st') = length (sync_info st)
  /\ input_boost_work st' = input_boost_work st
  /\ last_input_time st' = last_input_time st
  /\ st_cpu_bias st' = st_cpu_bias st.

(** The entries of the weak path: the two triggers and the activation. *)
Definition weak_entry (en : entry) : bool :=
  match en with
  | Input_event | Mdss_boost_kick | Work_input_boost => true
  | _ => false
  end.

(** Whether a strong boost is active after a run that started with [b]. *)
Definition strong_after (b : bool) (l : list (env * entry)) : bool :=
  foldl (fun b x => match snd x with
                    | Input_boost_max_kick _ => true
                    | Work_input_boost_rem => false
                    | _ => b
                    end) b l.

(** The invariant of the whole driver on a machine with [nr] possible CPUs. *)
Definition driver_invariant (nr : nat) (st : state) : Prop :=
  cpu <$> sync_info st = seq 0 nr
  /\ boost_invariant st
  /\ (max_boost_active st = true -> expiry_pending st).

(** The CPUs for which policy re-evaluation was requested, in the order of
    the requests. *)
Definition updates_of (cs : list call) : list nat :=
  omap (fun c => match c with
                 | Call_cpufreq_update_policy i => Some i
                 | _ => None
                 end) cs.

(** The CPUs an entry asks re-evaluation for: those online at the time, for
    the routines that write floors; none for the triggers and for a weak
    activation that a strong boost suppresses. *)
Definition requested_cpus (e : env) (en : entry) (st : state) : list nat :=
  match en with
  | Input_event | Mdss_boost_kick => []
  | Input_boost_max_kick _ | Work_input_boost_rem => cpu_online_mask e
  | Work_input_boost =>
      if max_boost_active st then [] else cpu_online_mask e
  end.

(** The same along a sequence of entries, each with the state it finds. *)
Fixpoint requests (msecs_to_jiffies : Z -> Z) (l : list (env * entry))
         (st : state) : list nat :=
  match l with
  | [] => []
  | x :: l =>
      requested_cpus (fst x) (snd x) st
      ++ requests msecs_to_jiffies l (exec msecs_to_jiffies (fst x) (snd x) st)
  end.

(** Whether a trigger is accepted, that is queues the weak activation. *)
Definition accepted (msecs_to_jiffies : Z -> Z) (e : env) (en : entry)
           (st : state) : bool :=
  match en with
  | Input_event => negb (work_pending st)
  | Mdss_boost_kick =>
      negb (work_pending st
            || time_after (jiffies e)
                 (ulong (last_input_time st + msecs_to_jiffies MDSS_TIMEOUT)))
  | _ => false
  end.

(** The time of the most recent accepted trigger of a sequence of entries;
    [t0] when there is none. *)
Fixpoint last_accepted_trigger (msecs_to_jiffies : Z -> Z) (t0 : Z)
         (l : list (env * entry)) (st : state) : Z :=
  match l with
  | [] => t0
  | x :: l =>
      last_accepted_trigger msecs_to_jiffies
        (if accepted msecs_to_jiffies (fst x) (snd x) st
         then jiffies (fst x) else t0)
        l (exec msecs_to_jiffies (fst x) (snd x) st)
  end.

(** Ticks since the last input event, in [unsigned long] arithmetic. *)
Definition elapsed (e : env) (st : state) : Z :=
  ulong (jiffies e - last_input_time st).

(** ** Sample machines *)

(** Eight possible CPUs, four of them online. *)
Definition env0 : env := mk_env 0 [0; 1; 2; 3]%nat.

(** After a weak and after a strong activation, one tick per millisecond. *)
Definition weak_boosted : state :=
  run_input_boost_work (fun m => m) env0 (idle_state 8 false).
Definition strong_boosted : state :=
  input_boost_max_kick (fun m => m) env0 5000 (idle_state 8 false).

(** The proposal of the spec's example, for CPU 2. *)
Definition proposal : cpufreq_policy := mk_policy 2 300000 2000000.

(** Ten ticks later. *)
Definition env10 : env := mk_env 10 [0; 1; 2; 3]%nat.

(** An input event at tick 0 has queued the weak activation, which has not
    run yet; and the same machine once the worker has run it. *)
Definition work_queued : state := cpuboost_input_event env0 (idle_state 8 false).
Definition work_done : state := run_input_boost_work (fun m => m) env0 work_queued.

(** Tick 6000 on a machine whose last input event was at tick 0. *)
Definition env6000 : env := mk_env 6000 [0; 1; 2; 3]%nat.

(** Initialisation outcomes: the work queue cannot be allocated; the input
    handler cannot be registered (-ENOMEM); everything succeeds. *)
Definition init_no_wq : init_env := mk_init_env false 0 0.
Definition init_no_handler : init_env := mk_init_env true 0 (-12).
Definition init_ok : init_env := mk_init_env true 0 0.

(** How often the weak activation was queued, how often the worker ran it in
    a sequence of entries, and whether it is pending, as a number. *)
Definition queue_work_calls (cs : list call) : nat :=
  length (List.filter (fun c => match c with
                                | Call_queue_work => true
                                | _ => false
                                end) cs).
Definition activation_runs (l : list (env * entry)) : nat :=
  length (List.filter (fun x => match snd x with
                                | Work_input_boost => true
                                | _ => false
                                end) l).
Definition pending_activations (st : state) : nat :=
  if input_boost_work st then 1 else 0.

(** The last input event came 100 ticks before the tick counter wrapped; it
    is now tick 50 after the wrap. *)
Definition before_wrap : state :=
  set_last_input_time (2 ^ 64 - 100) work_done.
Definition env_wrapped : env := mk_env 50 [0; 1; 2; 3]%nat.

(** An input event at tick 0 and its boost, then a kick at tick 4000, which is
    accepted, and its boost; and tick 8000. *)
Definition kick_accepted_at_4000 : list (env * entry) :=
  [(mk_env 0 [0; 1; 2; 3]%nat, Input_event);
   (mk_env 0 [0; 1; 2; 3]%nat, Work_input_boost);
   (mk_env 150 [0; 1; 2; 3]%nat, Work_input_boost_rem);
   (mk_env 4000 [0; 1; 2; 3]%nat, Mdss_boost_kick);
   (mk_env 4000 [0; 1; 2; 3]%nat, Work_input_boost);
   (mk_env 4150 [0; 1; 2; 3]%nat, Work_input_boost_rem)].
Definition env8000 : env := mk_env 8000 [0; 1; 2; 3]%nat.

(** An input event at tick 0, a second one at tick 5500 that finds the
    activation still pending, and the activation run at tick 5600. *)
Definition event_dropped_at_5500 : list (env * entry) :=
  [(mk_env 0 [0; 1; 2; 3]%nat, Input_event);
   (mk_env 5500 [0; 1; 2; 3]%nat, Input_event);
   (mk_env 5600 [0; 1; 2; 3]%nat, Work_input_boost)].

(** The notifier cannot be registered (-EINVAL), the rest succeeds. *)
Definition init_no_notifier : init_env := mk_init_env true (-22) 0.

(** * Proofs *)

(** ** Loops over the per-CPU array *)

Lemma set_sync_info_id st : set_sync_info (sync_info st) st = st.
Proof. by destruct st. Qed.

Lemma foldl_alter_lookup (g : nat -> cpu_sync -> cpu_sync) n (l : list cpu_sync) j :
  foldl (fun l i => alter (g i) i l) l (seq 0 n) !! j
  = if decide (j < n)%nat then g j <$> l !! j else l !! j.
Proof.
  induction n as [|n IH].
  - destruct (decide (j < 0)%nat); [lia | done].
  - rewrite seq_S, foldl_app. simpl.
    destruct (decide (j = n)) as [->|Hne].
    + rewrite list_lookup_alter_eq, IH.
      repeat case_decide; try lia. done.
    + rewrite list_lookup_alter_ne by done. rewrite IH.
      repeat case_decide; try lia; done.
Qed.

Lemma foldl_alter_imap (g : nat -> cpu_sync -> cpu_sync) (l : list cpu_sync) :
  foldl (fun l i => alter (g i) i l) l (seq 0 (length l)) = imap g l.
Proof.
  apply list_eq. intros j.
  rewrite foldl_alter_lookup, list_lookup_imap.
  case_decide as Hj; [done |].
  rewrite (lookup_ge_None_2 l j) by lia. done.
Qed.

Lemma foldl_write (body : nat -> state -> state) (g : nat -> cpu_sync -> cpu_sync)
      (cs : list nat) st :
  (forall i st, body i st = set_sync_info (alter (g i) i (sync_info st)) st) ->
  foldl (fun st i => body i st) st cs
  = set_sync_info (foldl (fun l i => alter (g i) i l) (sync_info st) cs) st.
Proof.
  intros Hbody. revert st.
  induction cs as [|i cs IH]; intros st; simpl.
  - by rewrite set_sync_info_id.
  - rewrite IH, Hbody. done.
Qed.

Lemma for_each_possible_cpu_write body g st :
  (forall i st, body i st = set_sync_info (alter (g i) i (sync_info st)) st) ->
  for_each_possible_cpu (nr_cpus st) body st
  = set_sync_info (imap g (sync_info st)) st.
Proof.
  intros Hbody. unfold for_each_possible_cpu, nr_cpus.
  rewrite (foldl_write body g) by done.
  by rewrite foldl_alter_imap.
Qed.

Lemma with_floors_length f l : length (with_floors f l) = length l.
Proof. apply length_imap. Qed.

Lemma with_floors_lookup f l i :
  with_floors f l !! i = (fun s => mk_cpu_sync (cpu s) (f i)) <$> l !! i.
Proof. apply list_lookup_imap. Qed.

Lemma with_floors_cpu f l : cpu <$> with_floors f l = cpu <$> l.
Proof.
  apply list_eq. intros i.
  rewrite !list_lookup_fmap, with_floors_lookup.
  by destruct (l !! i).
Qed.

Lemma with_floors_const_Forall v l :
  Forall (fun s => input_boost_min s = v) (with_floors (fun _ => v) l).
Proof.
  apply Forall_lookup. intros i s. rewrite with_floors_lookup.
  destruct (l !! i); simpl; [|done]. by intros [= <-].
Qed.

Lemma with_floors_Forall (P : Z -> Prop) f l :
  (forall i, P (f i)) ->
  Forall (fun s => P (input_boost_min s)) (with_floors f l).
Proof.
  intros HP. apply Forall_lookup. intros i s. rewrite with_floors_lookup.
  destruct (l !! i); simpl; [|done]. intros [= <-]. apply HP.
Qed.

Lemma update_policy_online_eq e st :
  update_policy_online e st
  = mk_state (sync_info st) (max_boost_active st) (last_input_time st)
             (st_cpu_bias st) (input_boost_work st) (input_boost_rem st)
             (calls st ++ (Call_cpufreq_update_policy <$> cpu_online_mask e)).
Proof.
  unfold update_policy_online, for_each_online_cpu.
  generalize (cpu_online_mask e) as cs. intros cs. revert st.
  induction cs as [|i cs IH]; intros st; simpl.
  - rewrite app_nil_r. by destruct st.
  - rewrite IH. simpl. by rewrite <- app_assoc.
Qed.

(** ** Each routine in closed form *)

Lemma do_input_boost_rem_eq e st :
  do_input_boost_rem e st
  = mk_state (with_floors (fun _ => 0) (sync_info st)) false
             (last_input_time st) false (input_boost_work st)
             (input_boost_rem st)
             (calls st ++ (Call_cpufreq_update_policy <$> cpu_online_mask e)).
Proof.
  unfold do_input_boost_rem.
  set (st1 := if st_cpu_bias st then set_st_cpu_bias false st else st).
  rewrite (for_each_possible_cpu_write _ (fun _ s => mk_cpu_sync (cpu s) 0))
    by done.
  rewrite update_policy_online_eq. subst st1.
  destruct st as [l [] t [] w r c]; reflexivity.
Qed.

Section Closed_forms.

Variable msecs_to_jiffies : Z -> Z.

Lemma do_input_boost_max_eq e d st :
  do_input_boost_max msecs_to_jiffies e d st
  = mk_state (with_floors (fun _ => UINT_MAX) (sync_info st)) true
             (last_input_time st) (st_cpu_bias st) (input_boost_work st)
             (Some (ulong (jiffies e + msecs_to_jiffies d)))
             (calls st ++ [Call_cancel_delayed_work_sync]
                ++ (Call_cpufreq_update_policy <$> cpu_online_mask e)
                ++ [Call_queue_delayed_work (msecs_to_jiffies d)]).
Proof.
  unfold do_input_boost_max.
  rewrite (for_each_possible_cpu_write _
             (fun _ s => mk_cpu_sync (cpu s) UINT_MAX)) by done.
  rewrite update_policy_online_eq.
  unfold queue_delayed_work, set_max_boost_active. simpl.
  by rewrite <- !app_assoc.
Qed.

Lemma do_input_boost_eq e st :
  do_input_boost msecs_to_jiffies e st
  = if max_boost_active st then st
    else mk_state (with_floors weak_tier (sync_info st)) false
           (last_input_time st) (st_cpu_bias st) (input_boost_work st)
           (Some (ulong (jiffies e + msecs_to_jiffies IB_DURATION)))
           (calls st ++ [Call_cancel_delayed_work_sync]
              ++ (Call_cpufreq_update_policy <$> cpu_online_mask e)
              ++ [Call_queue_delayed_work (msecs_to_jiffies IB_DURATION)]).
Proof.
  unfold do_input_boost.
  destruct (max_boost_active st) eqn:Hmax; [done |].
  rewrite (for_each_possible_cpu_write _
             (fun i s => mk_cpu_sync (cpu s) (weak_tier i))).
  - rewrite update_policy_online_eq.
    unfold queue_delayed_work, set_input_boost_rem, log. simpl.
    rewrite Hmax. by rewrite <- !app_assoc.
  - intros i st0. unfold weak_tier. by destruct (i <? 4)%nat.
Qed.

Lemma input_boost_max_kick_eq e d st :
  input_boost_max_kick msecs_to_jiffies e d st
  = mk_state (with_floors (fun _ => UINT_MAX) (sync_info st)) true
             (last_input_time st) true (input_boost_work st)
             (Some (ulong (jiffies e + msecs_to_jiffies d)))
             (calls st ++ [Call_cancel_delayed_work_sync]
                ++ (Call_cpufreq_update_policy <$> cpu_online_mask e)
                ++ [Call_queue_delayed_work (msecs_to_jiffies d)]).
Proof.
  unfold input_boost_max_kick. rewrite do_input_boost_max_eq.
  by destruct st as [l m t [] w r c].
Qed.

End Closed_forms.

(** ** The policy-adjustment hook *)

Ltac cmp_cases :=
  repeat match goal with
         | |- context [(?a >? ?b)] => rewrite (Z.gtb_ltb a b)
         | |- context [(?a <? ?b)] => destruct (Z.ltb_spec a b); simpl in *
         end.

Lemma cpufreq_verify_within_limits_floor p lo :
  lo <= policy_max p -> policy_min p <= UINT_MAX -> policy_max p <= UINT_MAX ->
  cpufreq_verify_within_limits p lo UINT_MAX
  = mk_policy (policy_cpu p) (Z.min (Z.max (policy_min p) lo) (policy_max p))
              (policy_max p).
Proof.
  destruct p as [c mn mx]. simpl. intros Hlo Hmn Hmx.
  unfold cpufreq_verify_within_limits. simpl.
  cmp_cases; f_equal; lia.
Qed.

Lemma effective_min_le floor max : effective_min floor max <= max.
Proof. unfold effective_min. lia. Qed.

Lemma boost_adjust_notify_no_floor st p s :
  sync_info st !! policy_cpu p = Some s ->
  input_boost_min s = 0 ->
  boost_adjust_notify st CPUFREQ_ADJUST p = Some (NOTIFY_OK, p).
Proof.
  intros Hs H0. unfold boost_adjust_notify. rewrite Hs, H0. reflexivity.
Qed.

Lemma boost_adjust_notify_floor st p s :
  sync_info st !! policy_cpu p = Some s ->
  input_boost_min s <> 0 ->
  is_uint (policy_min p) -> is_uint (policy_max p) ->
  boost_adjust_notify st CPUFREQ_ADJUST p
  = Some (NOTIFY_OK,
          mk_policy (policy_cpu p)
            (Z.min (Z.max (policy_min p)
                          (effective_min (input_boost_min s) (policy_max p)))
                   (policy_max p))
            (policy_max p)).
Proof.
  intros Hs Hne [_ Hmn] [_ Hmx]. unfold boost_adjust_notify. rewrite Hs.
  change (CPUFREQ_ADJUST =? CPUFREQ_ADJUST) with true. cbv iota.
  destruct (Z.eqb_spec (input_boost_min s) 0) as [|_]; [done |].
  fold (effective_min (input_boost_min s) (policy_max p)).
  rewrite cpufreq_verify_within_limits_floor;
    auto using effective_min_le.
Qed.

Lemma boost_adjust_notify_other_event st val p s :
  sync_info st !! policy_cpu p = Some s ->
  val <> CPUFREQ_ADJUST ->
  boost_adjust_notify st val p = Some (NOTIFY_OK, p).
Proof.
  intros Hs Hval. unfold boost_adjust_notify. rewrite Hs.
  by destruct (Z.eqb_spec val CPUFREQ_ADJUST).
Qed.

(** C1: on CPUFREQ_ADJUST the hook returns the proposed limits unchanged when
    the CPU's floor is 0; otherwise the proposed minimum is raised to
    min(floor == UINT_MAX ? max : floor, max) and never ends above max, the
    maximum staying as proposed.  With floor 0 the proposal (300000, 2000000)
    comes back as it is; with floor 1113600 it comes back as
    (1113600, 2000000). *)
Theorem boost_adjust_notify_clamps_min st p s :
  sync_info st !! policy_cpu p = Some s ->
  is_uint (policy_min p) -> is_uint (policy_max p) ->
  let floor := input_boost_min s in
  let eff := Z.min (if floor =? UINT_MAX then policy_max p else floor)
                   (policy_max p) in
  (floor = 0 -> boost_adjust_notify st CPUFREQ_ADJUST p = Some (NOTIFY_OK, p))
  /\ (floor <> 0 ->
      exists new_min,
        boost_adjust_notify st CPUFREQ_ADJUST p
        = Some (NOTIFY_OK, mk_policy (policy_cpu p) new_min (policy_max p))
        /\ new_min = Z.min (Z.max (policy_min p) eff) (policy_max p)
        /\ new_min <= policy_max p
        /\ (policy_min p <= policy_max p ->
            new_min = Z.max (policy_min p) eff /\ eff <= new_min))
  /\ (floor = 0 -> policy_min p = 300000 -> policy_max p = 2000000 ->
      boost_adjust_notify st CPUFREQ_ADJUST p
      = Some (NOTIFY_OK, mk_policy (policy_cpu p) 300000 2000000))
  /\ (floor = 1113600 -> policy_min p = 300000 -> policy_max p = 2000000 ->
      boost_adjust_notify st CPUFREQ_ADJUST p
      = Some (NOTIFY_OK, mk_policy (policy_cpu p) 1113600 2000000)).
Proof.
  intros Hs Hmn Hmx floor eff. subst floor.
  repeat split.
  - intros H0. by apply (boost_adjust_notify_no_floor st p s).
  - intros Hne. eexists. split; [by apply (boost_adjust_notify_floor st p s) |].
    fold eff. unfold effective_min. fold eff.
    repeat split; lia.
  - intros H0 Hpmin Hpmax.
    rewrite (boost_adjust_notify_no_floor st p s) by done.
    destruct p; simpl in *; congruence.
  - intros Hf Hpmin Hpmax.
    rewrite (boost_adjust_notify_floor st p s) by (done || lia).
    rewrite Hf, Hpmin, Hpmax. reflexivity.
Qed.

Lemma boost_adjust_notify_clamps_min_witness :
  boost_adjust_notify weak_boosted CPUFREQ_ADJUST proposal
  = Some (NOTIFY_OK, mk_policy 2 1113600 2000000).
Proof.
  apply (boost_adjust_notify_clamps_min weak_boosted proposal
           (mk_cpu_sync 2 1113600)); try reflexivity.
  - unfold is_uint, UINT_MAX; simpl; lia.
  - unfold is_uint, UINT_MAX; simpl; lia.
Defined.

(** C10: the hook never changes the proposed maximum, whatever the floor of
    the CPU and whatever the event; on a proposal with min <= max it can only
    raise the minimum; and for an event other than CPUFREQ_ADJUST it returns
    the policy with both limits as proposed. *)
Theorem boost_adjust_notify_keeps_max st val p s :
  sync_info st !! policy_cpu p = Some s ->
  is_uint (policy_min p) -> is_uint (policy_max p) ->
  (exists new_min,
      boost_adjust_notify st val p
      = Some (NOTIFY_OK, mk_policy (policy_cpu p) new_min (policy_max p))
      /\ (policy_min p <= policy_max p -> policy_min p <= new_min))
  /\ (val <> CPUFREQ_ADJUST ->
      boost_adjust_notify st val p = Some (NOTIFY_OK, p)).
Proof.
  intros Hs Hmn Hmx. split.
  - destruct (decide (val = CPUFREQ_ADJUST)) as [->|Hval].
    + destruct (decide (input_boost_min s = 0)) as [H0|Hne].
      * exists (policy_min p).
        rewrite (boost_adjust_notify_no_floor st p s) by done.
        split; [by destruct p | lia].
      * eexists.
        rewrite (boost_adjust_notify_floor st p s) by done.
        split; [reflexivity |].
        pose proof (effective_min_le (input_boost_min s) (policy_max p)). lia.
    + exists (policy_min p).
      rewrite (boost_adjust_notify_other_event st val p s) by done.
      split; [by destruct p | lia].
  - intros Hval. by apply (boost_adjust_notify_other_event st val p s).
Qed.

Lemma boost_adjust_notify_keeps_max_witness :
  (exists new_min,
      boost_adjust_notify strong_boosted CPUFREQ_ADJUST proposal
      = Some (NOTIFY_OK, mk_policy 2 new_min 2000000)
      /\ (300000 <= 2000000 -> 300000 <= new_min))
  /\ (CPUFREQ_ADJUST <> CPUFREQ_ADJUST ->
      boost_adjust_notify strong_boosted CPUFREQ_ADJUST proposal
      = Some (NOTIFY_OK, proposal)).
Proof.
  apply (boost_adjust_notify_keeps_max strong_boosted CPUFREQ_ADJUST proposal
           (mk_cpu_sync 2 UINT_MAX)).
  - reflexivity.
  - unfold is_uint, UINT_MAX; simpl; lia.
  - unfold is_uint, UINT_MAX; simpl; lia.
Defined.

(** ** Triggers in closed form *)

Lemma cpuboost_input_event_eq e st :
  cpuboost_input_event e st
  = if input_boost_work st then set_last_input_time (jiffies e) st
    else mk_state (sync_info st) (max_boost_active st) (jiffies e) true true
                  (input_boost_rem st) (calls st ++ [Call_queue_work]).
Proof. by destruct st as [l m t [] [] r c]. Qed.

Lemma mdss_boost_kick_eq msecs_to_jiffies e st :
  mdss_boost_kick msecs_to_jiffies e st
  = if work_pending st
       || time_after (jiffies e)
            (ulong (last_input_time st + msecs_to_jiffies MDSS_TIMEOUT))
    then st
    else mk_state (sync_info st) (max_boost_active st) (last_input_time st)
                  true true (input_boost_rem st)
                  (calls st ++ [Call_queue_work]).
Proof.
  unfold mdss_boost_kick.
  destruct (work_pending st || _) eqn:Hdrop; [done |].
  apply orb_false_iff in Hdrop as [Hp _]. unfold work_pending in Hp.
  destruct st as [l m t [] w r c]; simpl in *; subst w; reflexivity.
Qed.

(** ** Strong boost and expiry *)

(** C3: a strong-boost request takes effect from every state and for every
    duration: the pending expiry is cancelled, every possible CPU gets the
    floor UINT_MAX, policy is re-evaluated for each online CPU, the expiry is
    queued for now + d and max_boost_active is set; neither a pending weak
    activation nor an active boost makes a difference. *)
Theorem input_boost_max_kick_takes_effect msecs_to_jiffies e d st :
  strong_boost_effect msecs_to_jiffies e d st
    (input_boost_max_kick msecs_to_jiffies e d st)
  /\ strong_boost_effect msecs_to_jiffies e d st
       (do_input_boost_max msecs_to_jiffies e d st)
  /\ input_boost_rem (cancel_delayed_work_sync st) = None
  /\ st_cpu_bias (input_boost_max_kick msecs_to_jiffies e d st) = true.
Proof.
  rewrite input_boost_max_kick_eq, do_input_boost_max_eq.
  unfold strong_boost_effect, all_floors. simpl.
  rewrite with_floors_length, with_floors_cpu.
  pose proof (with_floors_const_Forall UINT_MAX (sync_info st)).
  repeat split; done.
Qed.

(** C7: the expiry routine, run to its end, puts the floor of every possible
    CPU back to 0, re-evaluates policy for each online CPU and leaves
    max_boost_active false, whichever boost was expiring; run by the worker,
    it also leaves no expiry pending. *)
Theorem do_input_boost_rem_resets e st :
  expiry_effect e st (do_input_boost_rem e st)
  /\ expiry_effect e st (run_input_boost_rem e st)
  /\ input_boost_rem (run_input_boost_rem e st) = None.
Proof.
  unfold run_input_boost_rem. rewrite !do_input_boost_rem_eq.
  unfold expiry_effect, all_floors. simpl.
  rewrite with_floors_length, with_floors_cpu.
  pose proof (with_floors_const_Forall 0 (sync_info st)).
  repeat split; done.
Qed.

(** ** Invariants *)

Lemma with_floors_Exists f (l : list cpu_sync) :
  (0 < length l)%nat -> (forall i, f i <> 0) ->
  Exists (fun s => input_boost_min s <> 0) (with_floors f l).
Proof.
  intros Hl Hf. destruct l as [|s l]; simpl in Hl; [lia |].
  apply Exists_cons_hd. simpl. apply Hf.
Qed.

Lemma with_floors_zero_not_Exists (l : list cpu_sync) :
  ~ Exists (fun s => input_boost_min s <> 0) (with_floors (fun _ => 0) l).
Proof.
  intros Hex. apply Exists_exists in Hex as (s & Hin & Hne).
  pose proof (with_floors_const_Forall 0 l) as Hall.
  rewrite Forall_forall in Hall. by apply Hne, Hall.
Qed.

Lemma weak_tier_nonzero i : weak_tier i <> 0.
Proof. unfold weak_tier. by destruct (i <? 4)%nat. Qed.

Lemma weak_tier_tier i : boost_tier (weak_tier i).
Proof.
  unfold weak_tier, boost_tier. destruct (i <? 4)%nat; auto.
Qed.

Lemma idle_state_length nr bias : length (sync_info (idle_state nr bias)) = nr.
Proof. simpl. by rewrite length_imap, length_replicate. Qed.

Lemma idle_state_floors nr bias : all_floors 0 (idle_state nr bias).
Proof.
  unfold all_floors. simpl. apply Forall_lookup. intros i s.
  rewrite list_lookup_imap.
  destruct (replicate nr _ !! i); simpl; [|done]. by intros [= <-].
Qed.

Lemma all_floors_zero_no_floor st : all_floors 0 st -> ~ some_floor_set st.
Proof.
  unfold all_floors, some_floor_set. intros Hall Hex.
  apply Exists_exists in Hex as (s & Hin & Hne).
  rewrite Forall_forall in Hall. by apply Hne, Hall.
Qed.

Lemma idle_state_invariant nr bias : boost_invariant (idle_state nr bias).
Proof.
  split.
  - split.
    + intros [t Ht]. discriminate Ht.
    + intros Hex. by apply (all_floors_zero_no_floor _ (idle_state_floors nr bias)) in Hex.
  - discriminate.
Qed.

Section Invariants.

Variable msecs_to_jiffies : Z -> Z.

Lemma do_input_boost_invariant e st :
  (0 < nr_cpus st)%nat -> boost_invariant st ->
  boost_invariant (do_input_boost msecs_to_jiffies e st).
Proof.
  intros Hnr Hinv. rewrite do_input_boost_eq.
  destruct (max_boost_active st); [done |].
  split; [|discriminate].
  unfold expiry_pending, some_floor_set. simpl. split.
  - intros _. apply with_floors_Exists; [done | apply weak_tier_nonzero].
  - intros _. by eexists.
Qed.

Lemma do_input_boost_max_invariant e d st :
  (0 < nr_cpus st)%nat ->
  boost_invariant (do_input_boost_max msecs_to_jiffies e d st).
Proof.
  intros Hnr. rewrite do_input_boost_max_eq.
  split.
  - unfold expiry_pending, some_floor_set. simpl. split.
    + intros _. by apply with_floors_Exists.
    + intros _. by eexists.
  - intros _. apply with_floors_const_Forall.
Qed.

Lemma run_input_boost_rem_invariant e st :
  boost_invariant (run_input_boost_rem e st).
Proof.
  unfold run_input_boost_rem. rewrite do_input_boost_rem_eq.
  split; [|discriminate].
  unfold expiry_pending, some_floor_set. simpl. split.
  - intros [t Ht]. discriminate Ht.
  - intros Hex. by apply with_floors_zero_not_Exists in Hex.
Qed.

Lemma boost_step_length st st' :
  boost_step msecs_to_jiffies st st' -> nr_cpus st' = nr_cpus st.
Proof.
  unfold nr_cpus. intros [e st0|e d st0|e st0].
  - unfold run_input_boost_work. rewrite do_input_boost_eq. simpl.
    destruct (max_boost_active st0); simpl; [done |].
    apply with_floors_length.
  - rewrite do_input_boost_max_eq. apply with_floors_length.
  - unfold run_input_boost_rem. rewrite do_input_boost_rem_eq.
    apply with_floors_length.
Qed.

Lemma boost_step_invariant st st' :
  (0 < nr_cpus st)%nat -> boost_invariant st ->
  boost_step msecs_to_jiffies st st' -> boost_invariant st'.
Proof.
  intros Hnr Hinv Hstep. revert Hnr Hinv.
  destruct Hstep as [e st0|e d st0|e st0]; intros Hnr Hinv.
  - unfold run_input_boost_work.
    apply do_input_boost_invariant; [exact Hnr | exact Hinv].
  - by apply do_input_boost_max_invariant.
  - apply run_input_boost_rem_invariant.
Qed.

Lemma boost_reachable_invariant nr bias st :
  (0 < nr)%nat -> boost_reachable msecs_to_jiffies nr bias st ->
  nr_cpus st = nr /\ boost_invariant st.
Proof.
  intros Hnr. induction 1 as [|st st' _ [Hlen Hinv] Hstep].
  - split; [apply idle_state_length | apply idle_state_invariant].
  - split.
    + by rewrite (boost_step_length _ _ Hstep).
    + apply (boost_step_invariant st); [lia | done | done].
Qed.

(** C2: in every state reached from IDLE by do_input_boost, do_input_boost_max
    and do_input_boost_rem, on a machine with at least one possible CPU, the
    expiry work is pending exactly when some CPU has a non-zero floor, and
    max_boost_active set means every floor is UINT_MAX. *)
Theorem boost_reachable_expiry_iff_floor nr bias st :
  (0 < nr)%nat -> boost_reachable msecs_to_jiffies nr bias st ->
  (expiry_pending st <-> some_floor_set st)
  /\ (max_boost_active st = true -> all_floors UINT_MAX st).
Proof.
  intros Hnr Hreach.
  by destruct (boost_reachable_invariant nr bias st Hnr Hreach) as [_ Hinv].
Qed.

End Invariants.

Lemma boost_reachable_expiry_iff_floor_witness :
  let st := do_input_boost_max (fun m => m) env0 5000 (idle_state 8 false) in
  (expiry_pending st <-> some_floor_set st)
  /\ (max_boost_active st = true -> all_floors UINT_MAX st).
Proof.
  apply (boost_reachable_expiry_iff_floor (fun m => m) 8 false).
  - lia.
  - eapply boost_reachable_step.
    + apply boost_reachable_idle.
    + apply boost_step_do_input_boost_max.
Defined.

Section Runs.

Variable msecs_to_jiffies : Z -> Z.

Lemma exec_sync_info e en st :
  sync_info (exec msecs_to_jiffies e en st) = sync_info st
  \/ (exists f, (forall i, boost_tier (f i))
                /\ sync_info (exec msecs_to_jiffies e en st)
                   = with_floors f (sync_info st)).
Proof.
  destruct en as [| |d| |]; unfold exec.
  - left. rewrite cpuboost_input_event_eq. by destruct (input_boost_work st).
  - left. rewrite mdss_boost_kick_eq. by destruct (_ || _).
  - right. exists (fun _ => UINT_MAX). rewrite input_boost_max_kick_eq.
    split; [|done]. intros _. unfold boost_tier. auto.
  - unfold run_input_boost_work. rewrite do_input_boost_eq. simpl.
    destruct (max_boost_active st); [by left |].
    right. exists weak_tier. split; [apply weak_tier_tier | done].
  - right. exists (fun _ => 0). unfold run_input_boost_rem.
    rewrite do_input_boost_rem_eq.
    split; [|done]. intros _. unfold boost_tier. auto.
Qed.

Lemma exec_all_tiers e en st :
  all_tiers st -> all_tiers (exec msecs_to_jiffies e en st).
Proof.
  unfold all_tiers. intros Hst.
  destruct (exec_sync_info e en st) as [-> | (f & Hf & ->)]; [done |].
  by apply (with_floors_Forall boost_tier).
Qed.

Lemma run_all_tiers l st :
  all_tiers st -> all_tiers (run msecs_to_jiffies l st).
Proof.
  revert st. induction l as [|[e en] l IH]; intros st Hst; simpl; [done |].
  apply IH. by apply exec_all_tiers.
Qed.

Lemma idle_state_all_tiers nr bias : all_tiers (idle_state nr bias).
Proof.
  pose proof (idle_state_floors nr bias) as Hall.
  unfold all_floors in Hall. unfold all_tiers.
  eapply List.Forall_impl; [|exact Hall].
  intros s Hs. simpl in Hs. unfold boost_tier. auto.
Qed.

(** C8: after any sequence of input events, kicks, strong-boost requests and
    runs of the two work items from IDLE, the floor of every CPU is 0, the low
    tier, the high tier or UINT_MAX.  The low tier (1113600) is what a weak
    activation writes to CPUs 0..3, the high tier (1113600) what it writes to
    the other CPUs, UINT_MAX what a strong activation writes to every CPU and
    0 what the expiry writes to every CPU; the triggers write no floor. *)
Theorem boost_floor_is_a_tier nr bias l :
  all_tiers (run msecs_to_jiffies l (idle_state nr bias))
  /\ IB_FREQ_MIN = 1113600 /\ IB_FREQ_MAX = 1113600 /\ UINT_MAX = 2 ^ 32 - 1
  /\ (forall e st i s,
        max_boost_active st = false -> sync_info st !! i = Some s ->
        sync_info (do_input_boost msecs_to_jiffies e st) !! i
        = Some (mk_cpu_sync (cpu s)
                  (if (i <? 4)%nat then IB_FREQ_MIN else IB_FREQ_MAX)))
  /\ (forall e st,
        max_boost_active st = true ->
        do_input_boost msecs_to_jiffies e st = st)
  /\ (forall e d st i s,
        sync_info st !! i = Some s ->
        sync_info (do_input_boost_max msecs_to_jiffies e d st) !! i
        = Some (mk_cpu_sync (cpu s) UINT_MAX))
  /\ (forall e st i s,
        sync_info st !! i = Some s ->
        sync_info (do_input_boost_rem e st) !! i = Some (mk_cpu_sync (cpu s) 0))
  /\ (forall e st,
        sync_info (cpuboost_input_event e st) = sync_info st
        /\ sync_info (mdss_boost_kick msecs_to_jiffies e st) = sync_info st).
Proof.
  split; [apply run_all_tiers, idle_state_all_tiers |].
  repeat split.
  - intros e st i s Hmax Hs. rewrite do_input_boost_eq, Hmax. simpl.
    by rewrite with_floors_lookup, Hs.
  - intros e st Hmax. by rewrite do_input_boost_eq, Hmax.
  - intros e d st i s Hs. rewrite do_input_boost_max_eq. simpl.
    by rewrite with_floors_lookup, Hs.
  - intros e st i s Hs. rewrite do_input_boost_rem_eq. simpl.
    by rewrite with_floors_lookup, Hs.
  - rewrite cpuboost_input_event_eq. by destruct (input_boost_work st).
  - rewrite mdss_boost_kick_eq. by destruct (_ || _).
Qed.

Lemma exec_last_input_time e en st :
  last_input_time (exec msecs_to_jiffies e en st)
  = match en with
    | Input_event => jiffies e
    | _ => last_input_time st
    end.
Proof.
  destruct en as [| |d| |]; unfold exec.
  - rewrite cpuboost_input_event_eq. by destruct (input_boost_work st).
  - rewrite mdss_boost_kick_eq. by destruct (_ || _).
  - by rewrite input_boost_max_kick_eq.
  - unfold run_input_boost_work. rewrite do_input_boost_eq. simpl.
    by destruct (max_boost_active st).
  - unfold run_input_boost_rem. by rewrite do_input_boost_rem_eq.
Qed.

(** C4, as the code has it: last_input_time is the time of the most recent
    input event, whether that event queued the weak activation or was
    dropped because one was pending already; the kick, accepted or dropped,
    never writes it, and neither do a strong-boost request or the two work
    routines.  Over any run, it is the time of the last input event of the
    run, or its value before the run when the run has none. *)
Theorem last_input_time_is_last_input_event l st :
  last_input_time (run msecs_to_jiffies l st)
  = last_input_event (last_input_time st) l
  /\ (forall e st, last_input_time (cpuboost_input_event e st) = jiffies e)
  /\ (forall e st, last_input_time (mdss_boost_kick msecs_to_jiffies e st)
                   = last_input_time st).
Proof.
  split; [|split].
  - revert st. induction l as [|[e en] l IH]; intros st; simpl; [done |].
    rewrite IH, exec_last_input_time. by destruct en.
  - intros e st0. apply (exec_last_input_time e Input_event).
  - intros e st0. apply (exec_last_input_time e Mdss_boost_kick).
Qed.

End Runs.

(** The claim C4 fails on both paths.  With the weak activation pending, an
    input event at tick 10 queues nothing and still moves last_input_time from
    0 to 10; and once the activation has run, a kick at tick 10 is accepted
    and queued while last_input_time stays 0. *)
Lemma last_input_time_not_only_accepted :
  (work_pending work_queued = true
   /\ calls (cpuboost_input_event env10 work_queued) = calls work_queued
   /\ input_boost_work (cpuboost_input_event env10 work_queued)
      = input_boost_work work_queued
   /\ last_input_time work_queued = 0
   /\ last_input_time (cpuboost_input_event env10 work_queued) = 10
   /\ last_input_time (cpuboost_input_event env10 work_queued)
      <> last_input_time work_queued)
  /\ (work_pending work_done = false
      /\ calls (mdss_boost_kick (fun m => m) env10 work_done)
         = calls work_done ++ [Call_queue_work]
      /\ input_boost_work (mdss_boost_kick (fun m => m) env10 work_done) = true
      /\ last_input_time (mdss_boost_kick (fun m => m) env10 work_done) = 0
      /\ last_input_time (mdss_boost_kick (fun m => m) env10 work_done)
         <> jiffies env10).
Proof.
  vm_compute. repeat split; discriminate.
Qed.

(** ** Deduplication and staleness of weak triggers *)

(** The claim C5 fails for an input event: with the weak activation pending,
    an event at tick 10 is dropped, yet the state is not what it was, since
    last_input_time has moved from 0 to 10. *)
Lemma dropped_input_event_changes_state :
  work_pending work_queued = true
  /\ cpuboost_input_event env10 work_queued <> work_queued
  /\ last_input_time (cpuboost_input_event env10 work_queued)
     <> last_input_time work_queued.
Proof.
  vm_compute. repeat split; discriminate.
Qed.

(** C5, as the code has it: while a weak activation is pending, a kick changes
    nothing at all, and an input event changes last_input_time, which becomes
    the time of the event, and nothing else: floors, max_boost_active, the
    pending expiry, the pending activation and the calls made are as before. *)
Theorem pending_weak_trigger_is_dropped msecs_to_jiffies e st :
  work_pending st = true ->
  mdss_boost_kick msecs_to_jiffies e st = st
  /\ cpuboost_input_event e st = set_last_input_time (jiffies e) st
  /\ (let st' := cpuboost_input_event e st in
      sync_info st' = sync_info st
      /\ max_boost_active st' = max_boost_active st
      /\ input_boost_rem st' = input_boost_rem st
      /\ input_boost_work st' = input_boost_work st
      /\ st_cpu_bias st' = st_cpu_bias st
      /\ calls st' = calls st
      /\ last_input_time st' = jiffies e).
Proof.
  intros Hp. rewrite mdss_boost_kick_eq, cpuboost_input_event_eq, Hp.
  unfold work_pending in Hp. rewrite Hp. simpl. done.
Qed.

Lemma pending_weak_trigger_is_dropped_witness :
  mdss_boost_kick (fun m => m) env10 work_queued = work_queued
  /\ cpuboost_input_event env10 work_queued
     = set_last_input_time 10 work_queued
  /\ (let st' := cpuboost_input_event env10 work_queued in
      sync_info st' = sync_info work_queued
      /\ max_boost_active st' = max_boost_active work_queued
      /\ input_boost_rem st' = input_boost_rem work_queued
      /\ input_boost_work st' = input_boost_work work_queued
      /\ st_cpu_bias st' = st_cpu_bias work_queued
      /\ calls st' = calls work_queued
      /\ last_input_time st' = 10).
Proof.
  apply (pending_weak_trigger_is_dropped (fun m => m) env10 work_queued).
  reflexivity.
Defined.

Lemma long_in_range z :
  - 2 ^ (BITS_PER_LONG - 1) <= z < 2 ^ (BITS_PER_LONG - 1) -> long z = z.
Proof.
  unfold long, ulong, BITS_PER_LONG.
  change (2 ^ (64 - 1)) with 9223372036854775808.
  change (2 ^ 64) with 18446744073709551616.
  intros Hz. cbv zeta.
  destruct (Z.ltb_spec (z mod 18446744073709551616) 9223372036854775808);
    Z.div_mod_to_equations; lia.
Qed.

Lemma ulong_in_range z : 0 <= z < 2 ^ BITS_PER_LONG -> ulong z = z.
Proof. intros Hz. unfold ulong. by apply Z.mod_small. Qed.

Lemma time_after_plain a b :
  0 <= a < 2 ^ (BITS_PER_LONG - 1) -> 0 <= b < 2 ^ (BITS_PER_LONG - 1) ->
  time_after a (ulong b) = (b <? a).
Proof.
  unfold BITS_PER_LONG. simpl. intros Ha Hb.
  rewrite ulong_in_range by (unfold BITS_PER_LONG; simpl; lia).
  unfold time_after.
  rewrite long_in_range by (unfold BITS_PER_LONG; simpl; lia).
  destruct (Z.ltb_spec (b - a) 0), (Z.ltb_spec b a); lia || done.
Qed.

(** The staleness test of the kick, on the variable last_input_time. *)
Lemma mdss_boost_kick_staleness msecs_to_jiffies e st :
  let deadline := last_input_time st + msecs_to_jiffies MDSS_TIMEOUT in
  let queued :=
    mk_state (sync_info st) (max_boost_active st) (last_input_time st)
             true true (input_boost_rem st) (calls st ++ [Call_queue_work]) in
  (time_after (jiffies e) (ulong deadline) = true ->
   mdss_boost_kick msecs_to_jiffies e st = st)
  /\ (0 <= jiffies e < 2 ^ 63 -> 0 <= deadline < 2 ^ 63 ->
      deadline < jiffies e ->
      mdss_boost_kick msecs_to_jiffies e st = st)
  /\ (msecs_to_jiffies MDSS_TIMEOUT = 5000 -> last_input_time st = 0 ->
      jiffies e = 6000 ->
      mdss_boost_kick msecs_to_jiffies e st = st)
  /\ (work_pending st = false ->
      time_after (jiffies e) (ulong deadline) = false ->
      mdss_boost_kick msecs_to_jiffies e st = queued)
  /\ (work_pending st = false ->
      0 <= jiffies e < 2 ^ 63 -> 0 <= deadline < 2 ^ 63 ->
      jiffies e <= deadline ->
      mdss_boost_kick msecs_to_jiffies e st = queued).
Proof.
  intros deadline queued.
  assert (Hplain : 0 <= jiffies e < 2 ^ 63 -> 0 <= deadline < 2 ^ 63 ->
                   time_after (jiffies e) (ulong deadline)
                   = (deadline <? jiffies e)).
  { intros Hj Hd. by apply time_after_plain. }
  assert (Hdrop : time_after (jiffies e) (ulong deadline) = true ->
                  mdss_boost_kick msecs_to_jiffies e st = st).
  { intros Hafter. rewrite mdss_boost_kick_eq. fold deadline.
    by rewrite Hafter, orb_true_r. }
  assert (Hqueue : work_pending st = false ->
                   time_after (jiffies e) (ulong deadline) = false ->
                   mdss_boost_kick msecs_to_jiffies e st = queued).
  { intros Hp Hin. rewrite mdss_boost_kick_eq. fold deadline.
    by rewrite Hp, Hin. }
  repeat split.
  - exact Hdrop.
  - intros Hj Hd Hlt. apply Hdrop. rewrite Hplain by done.
    by apply Z.ltb_lt.
  - intros Hto Hlast Hnow. apply Hdrop. subst deadline.
    rewrite Hto, Hlast, Hnow. reflexivity.
  - exact Hqueue.
  - intros Hp Hj Hd Hle. apply Hqueue; [done |]. rewrite Hplain by done.
    by apply Z.ltb_ge.
Qed.

Lemma run_last_input_time msecs_to_jiffies l st :
  last_input_time (run msecs_to_jiffies l st)
  = last_input_event (last_input_time st) l.
Proof.
  revert st. induction l as [|[e en] l IH]; intros st; simpl; [done |].
  rewrite IH, exec_last_input_time. by destruct en.
Qed.

(** The claim C6 fails in both directions, because the window is not counted
    from the most recent accepted trigger.  After a kick accepted at tick
    4000, a kick at tick 8000 is within 5000 ticks of that trigger and finds
    nothing pending, yet it is dropped: the last input event was at tick 0.
    And after an input event at tick 5500 that was dropped as a duplicate, a
    kick at tick 6000 is accepted although the most recent accepted trigger,
    at tick 0, is more than 5000 ticks old. *)
Lemma mdss_boost_kick_window_not_from_accepted_trigger :
  (let st := run (fun m => m) kick_accepted_at_4000 (idle_state 8 false) in
   last_accepted_trigger (fun m => m) 0 kick_accepted_at_4000
     (idle_state 8 false) = 4000
   /\ work_pending st = false
   /\ time_after (jiffies env8000) (ulong (4000 + MDSS_TIMEOUT)) = false
   /\ mdss_boost_kick (fun m => m) env8000 st = st)
  /\ (let st := run (fun m => m) event_dropped_at_5500 (idle_state 8 false) in
      last_accepted_trigger (fun m => m) 0 event_dropped_at_5500
        (idle_state 8 false) = 0
      /\ time_after (jiffies env6000) (ulong (0 + MDSS_TIMEOUT)) = true
      /\ mdss_boost_kick (fun m => m) env6000 st <> st
      /\ input_boost_work (mdss_boost_kick (fun m => m) env6000 st) = true
      /\ calls (mdss_boost_kick (fun m => m) env6000 st)
         = calls st ++ [Call_queue_work]).
Proof.
  vm_compute. repeat split; discriminate.
Qed.

(** C6, as the code has it: the staleness window of the kick is counted from
    last_input_time, which after any sequence of entries is the time of the
    most recent input event, queued or dropped as a duplicate, and which an
    accepted kick does not move.  A kick that comes after that time + 5000 ms
    is dropped: the state is as before and no activation is queued; a kick at
    tick 6000, one tick per millisecond, with the last input event at tick 0
    is dropped.  A kick within that window with no activation pending queues
    the activation. *)
Theorem mdss_boost_kick_window_of_last_input msecs_to_jiffies l st0 e :
  let st := run msecs_to_jiffies l st0 in
  let last := last_input_event (last_input_time st0) l in
  let deadline := last + msecs_to_jiffies MDSS_TIMEOUT in
  let queued :=
    mk_state (sync_info st) (max_boost_active st) last
             true true (input_boost_rem st) (calls st ++ [Call_queue_work]) in
  last_input_time st = last
  /\ last_input_time (mdss_boost_kick msecs_to_jiffies e st) = last
  /\ (time_after (jiffies e) (ulong deadline) = true ->
      mdss_boost_kick msecs_to_jiffies e st = st)
  /\ (0 <= jiffies e < 2 ^ 63 -> 0 <= deadline < 2 ^ 63 ->
      deadline < jiffies e ->
      mdss_boost_kick msecs_to_jiffies e st = st)
  /\ (msecs_to_jiffies MDSS_TIMEOUT = 5000 -> last = 0 ->
      jiffies e = 6000 ->
      mdss_boost_kick msecs_to_jiffies e st = st)
  /\ (work_pending st = false ->
      time_after (jiffies e) (ulong deadline) = false ->
      mdss_boost_kick msecs_to_jiffies e st = queued)
  /\ (work_pending st = false ->
      0 <= jiffies e < 2 ^ 63 -> 0 <= deadline < 2 ^ 63 ->
      jiffies e <= deadline ->
      mdss_boost_kick msecs_to_jiffies e st = queued).
Proof.
  intros st last deadline queued.
  assert (Hlast : last_input_time st = last)
    by apply run_last_input_time.
  pose proof (mdss_boost_kick_staleness msecs_to_jiffies e st) as Hkick.
  simpl in Hkick. rewrite Hlast in Hkick.
  destruct Hkick as (Hdrop & Hplain & Hsix & Hqueue & Hwithin).
  split; [exact Hlast |]. split.
  - rewrite mdss_boost_kick_eq. by destruct (_ || _).
  - repeat split; assumption.
Qed.

Lemma mdss_boost_kick_window_of_last_input_witness :
  mdss_boost_kick (fun m => m) env8000
    (run (fun m => m) kick_accepted_at_4000 (idle_state 8 false))
  = run (fun m => m) kick_accepted_at_4000 (idle_state 8 false).
Proof.
  pose proof (mdss_boost_kick_window_of_last_input (fun m => m)
                kick_accepted_at_4000 (idle_state 8 false) env8000)
    as (_ & _ & Hdrop & _).
  apply Hdrop. reflexivity.
Defined.

(** ** Initialisation *)

Lemma cpu_boost_init_eq ie r st :
  cpu_boost_init ie r st
  = if alloc_workqueue_ok ie
    then (input_register_handler_ret ie,
          mk_registry true
            (boost_adjust_nb_registered r
             || (cpufreq_register_notifier_ret ie =? 0))
            (cpuboost_input_handler_registered r
             || (input_register_handler_ret ie =? 0)),
          mk_state (imap (fun i s => mk_cpu_sync i (input_boost_min s))
                         (sync_info st))
                   (max_boost_active st) (last_input_time st) (st_cpu_bias st)
                   false None (calls st))
    else (- EFAULT,
          mk_registry false (boost_adjust_nb_registered r)
            (cpuboost_input_handler_registered r),
          st).
Proof.
  unfold cpu_boost_init. destruct (alloc_workqueue_ok ie); simpl; [|done].
  rewrite (for_each_possible_cpu_write _
             (fun i s => mk_cpu_sync i (input_boost_min s))) by done.
  reflexivity.
Qed.

Lemma cpu_boost_init_idle nr bias :
  cpu_boost_init init_ok boot_registry (boot_state nr bias)
  = (0, mk_registry true true true, idle_state nr bias).
Proof.
  rewrite cpu_boost_init_eq. simpl. unfold idle_state. simpl.
  do 2 f_equal. apply imap_ext. intros i s Hs.
  apply lookup_replicate in Hs as [-> _]. reflexivity.
Qed.

(** The claim C9 fails when the input handler cannot be registered: the call
    returns the failure code -12, and the cpufreq notifier registered just
    before stays registered, with the work queue allocated. *)
Lemma cpu_boost_init_failure_keeps_notifier :
  cpu_boost_init init_no_handler boot_registry (boot_state 8 false)
  = (-12, mk_registry true true false, idle_state 8 false)
  /\ boost_adjust_nb_registered
       (snd (fst (cpu_boost_init init_no_handler boot_registry
                    (boot_state 8 false)))) = true
  /\ fst (fst (cpu_boost_init init_no_handler boot_registry
                 (boot_state 8 false))) <> 0.
Proof.
  vm_compute. repeat split; discriminate.
Qed.

(** C9, as the code has it: when the work queue cannot be created,
    cpu_boost_init returns -EFAULT with nothing registered and the boost state
    untouched; when the input handler cannot be registered, it returns the
    failure code of the registration and the handler is not registered, while
    the work queue stays allocated and the cpufreq notifier stays registered
    whenever its own registration succeeded. *)
Theorem cpu_boost_init_failure ie st :
  (alloc_workqueue_ok ie = false ->
   cpu_boost_init ie boot_registry st = (- EFAULT, boot_registry, st)
   /\ - EFAULT <> 0)
  /\ (alloc_workqueue_ok ie = true -> input_register_handler_ret ie <> 0 ->
      exists st',
        cpu_boost_init ie boot_registry st
        = (input_register_handler_ret ie,
           mk_registry true (cpufreq_register_notifier_ret ie =? 0) false,
           st')).
Proof.
  split.
  - intros Hwq. rewrite cpu_boost_init_eq, Hwq. done.
  - intros Hwq Hret. rewrite cpu_boost_init_eq, Hwq. simpl.
    destruct (Z.eqb_spec (input_register_handler_ret ie) 0); [done |].
    by eexists.
Qed.

Lemma cpu_boost_init_failure_witness :
  cpu_boost_init init_no_wq boot_registry (boot_state 8 false)
  = (- EFAULT, boot_registry, boot_state 8 false)
  /\ - EFAULT <> 0.
Proof.
  apply (cpu_boost_init_failure init_no_wq (boot_state 8 false)).
  reflexivity.
Defined.

(** * Further properties of the driver *)

(** ** Connecting to input devices *)

Lemma input_core_fresh ic p :
  input_core_wf ic -> allocated ic !! p = None ->
  (p ∉ h_list ic) /\ (p ∉ open_handles ic).
Proof.
  intros [Hlive Hopen] Hp.
  assert (Hreg : p ∉ h_list ic).
  { intros Hin. destruct (Hlive p Hin) as [x Hx]. congruence. }
  split; [done | set_solver].
Qed.

Lemma input_core_eq a a' r r' o o' :
  a = a' -> r = r' -> o = o' -> mk_input_core a r o = mk_input_core a' r' o'.
Proof. by intros -> -> ->. Qed.



(** X2: after a successful cpuboost_input_connect the new handle is on the
    lists of the input core and the device is open through it, and
    cpuboost_input_disconnect of that handle, which closes the device, takes
    the handle off the lists and frees it, gives back memory, lists and open
    devices exactly as they were before the connection. *)
Theorem cpuboost_input_disconnect_undoes_connect ce handler dev ic :
  input_core_wf ic ->
  allocated ic !! kzalloc_ret ce = None ->
  fst (cpuboost_input_connect ce handler dev ic) = 0 ->
  let p := kzalloc_ret ce in
  let ic' := snd (cpuboost_input_connect ce handler dev ic) in
  allocated ic' !! p = Some (mk_input_handle dev handler "cpufreq")
  /\ p ∈ h_list ic' /\ p ∈ open_handles ic'
  /\ cpuboost_input_disconnect p ic' = ic.
Proof.
  intros Hwf Hfresh Hret p ic'. subst ic'. fold p in Hfresh.
  destruct (input_core_fresh ic p Hwf Hfresh) as [Hreg Hop].
  revert Hret.
  unfold cpuboost_input_connect, kzalloc. fold p.
  destruct ic as [a r o]. simpl in *.
  destruct (Nat.eqb_spec p 0) as [|_]; [done |].
  unfold write_handle, input_register_handle, input_open_device,
    input_unregister_handle, kfree. simpl.
  rewrite alter_insert_eq.
  destruct (Z.eqb_spec (input_register_handle_ret ce) 0) as [Hr|Hr];
    simpl; [|done].
  destruct (Z.eqb_spec (input_open_device_ret ce) 0) as [Ho|Ho];
    simpl; [|done].
  intros _. rewrite lookup_insert_eq.
  split; [done |]. split; [set_solver |]. split; [set_solver |].
  unfold cpuboost_input_disconnect, kfree, input_unregister_handle,
    input_close_device. simpl.
  apply input_core_eq.
  - by apply delete_insert_id.
  - set_solver.
  - set_solver.
Qed.

Lemma cpuboost_input_disconnect_undoes_connect_witness :
  let ic' := snd (cpuboost_input_connect (mk_connect_env 64 0 0) 1 2
                    no_devices) in
  allocated ic' !! 64%nat = Some (mk_input_handle 2 1 "cpufreq")
  /\ 64%nat ∈ h_list ic' /\ 64%nat ∈ open_handles ic'
  /\ cpuboost_input_disconnect 64 ic' = no_devices.
Proof.
  apply (cpuboost_input_disconnect_undoes_connect
           (mk_connect_env 64 0 0) 1 2 no_devices).
  - split; [intros p Hp; by apply not_elem_of_empty in Hp | done].
  - reflexivity.
  - reflexivity.
Defined.

(** ** Weak activation *)

Section Weak_path.

Variable msecs_to_jiffies : Z -> Z.

(** X3: a weak activation that is not suppressed by a strong boost cancels
    whatever expiry was pending and arms it anew for 150 ms from now, so the
    earlier deadline never survives; it writes the tier of each possible CPU,
    online or not, asks for policy re-evaluation of the online CPUs only,
    between the cancel and the queueing, and leaves max_boost_active,
    last_input_time, st_cpu_bias and the pending activation as they were. *)
Theorem do_input_boost_rearms_expiry e st :
  max_boost_active st = false ->
  weak_boost_effect msecs_to_jiffies e st (do_input_boost msecs_to_jiffies e st).
Proof.
  intros Hmax. rewrite do_input_boost_eq, Hmax.
  unfold weak_boost_effect. simpl.
  rewrite with_floors_length.
  repeat split; try done.
  intros i s Hs. by rewrite with_floors_lookup, Hs.
Qed.

Lemma exec_weak_under_strong e en st :
  max_boost_active st = true -> weak_entry en = true ->
  sync_info (exec msecs_to_jiffies e en st) = sync_info st
  /\ input_boost_rem (exec msecs_to_jiffies e en st) = input_boost_rem st
  /\ max_boost_active (exec msecs_to_jiffies e en st) = true
  /\ exists n, calls (exec msecs_to_jiffies e en st)
               = calls st ++ replicate n Call_queue_work.
Proof.
  intros Hmax Hweak. destruct en as [| |d| |]; try discriminate Hweak;
    unfold exec.
  - rewrite cpuboost_input_event_eq.
    destruct (input_boost_work st); simpl; repeat split; try done.
    + exists 0%nat. by rewrite app_nil_r.
    + by exists 1%nat.
  - rewrite mdss_boost_kick_eq.
    destruct (_ || _); simpl; repeat split; try done.
    + exists 0%nat. by rewrite app_nil_r.
    + by exists 1%nat.
  - unfold run_input_boost_work. rewrite do_input_boost_eq. simpl.
    rewrite Hmax. simpl. repeat split; try done.
    exists 0%nat. by rewrite app_nil_r.
Qed.

(** X4: while a strong boost is active, no sequence of input events, kicks
    and runs of the weak activation changes it: the floors stay as the strong
    boost wrote them, the expiry keeps its deadline, max_boost_active stays
    set, and the only calls made are queue_work. *)
Theorem weak_path_keeps_strong_boost l st :
  max_boost_active st = true ->
  Forall (fun x => weak_entry (snd x) = true) l ->
  let st' := run msecs_to_jiffies l st in
  sync_info st' = sync_info st
  /\ input_boost_rem st' = input_boost_rem st
  /\ max_boost_active st' = true
  /\ exists n, calls st' = calls st ++ replicate n Call_queue_work.
Proof.
  intros Hmax Hl. revert st Hmax.
  induction Hl as [|[e en] l Hen Hl IH]; intros st Hmax; simpl.
  - repeat split; try done. exists 0%nat. by rewrite app_nil_r.
  - destruct (exec_weak_under_strong e en st Hmax Hen)
      as (Hs & Hr & Hm & n & Hc).
    destruct (IH _ Hm) as (Hs' & Hr' & Hm' & n' & Hc').
    simpl in *. rewrite Hs', Hr', Hm', Hc', Hs, Hr, Hc.
    repeat split; try done.
    exists (n + n')%nat. by rewrite <- app_assoc, replicate_add.
Qed.

End Weak_path.

Lemma do_input_boost_rearms_expiry_witness :
  weak_boost_effect (fun m => m) env10 weak_boosted
    (do_input_boost (fun m => m) env10 weak_boosted).
Proof.
  apply (do_input_boost_rearms_expiry (fun m => m) env10 weak_boosted).
  reflexivity.
Defined.

Lemma weak_path_keeps_strong_boost_witness :
  let l := [(env10, Input_event); (env10, Work_input_boost);
            (env10, Mdss_boost_kick)] in
  let st' := run (fun m => m) l strong_boosted in
  sync_info st' = sync_info strong_boosted
  /\ input_boost_rem st' = input_boost_rem strong_boosted
  /\ max_boost_active st' = true
  /\ exists n, calls st' = calls strong_boosted ++ replicate n Call_queue_work.
Proof.
  apply (weak_path_keeps_strong_boost (fun m => m)
           [(env10, Input_event); (env10, Work_input_boost);
            (env10, Mdss_boost_kick)] strong_boosted).
  - reflexivity.
  - repeat constructor.
Defined.

(** ** Activation and expiry together *)

Lemma with_floors_zero_id (f : nat -> Z) (l : list cpu_sync) :
  Forall (fun s => input_boost_min s = 0) l ->
  with_floors (fun _ => 0) (with_floors f l) = l.
Proof.
  intros Hall. apply list_eq. intros i.
  rewrite !with_floors_lookup.
  destruct (l !! i) as [s|] eqn:Hs; simpl; [|done].
  rewrite Forall_lookup in Hall. specialize (Hall i s Hs).
  destruct s as [c m]. simpl in *. by subst m.
Qed.

(** X5: from IDLE, an activation followed by the run of the expiry gives IDLE
    again with the per-CPU records exactly as they were, for a weak activation
    and for a strong boost of any duration alike. *)
Theorem boost_then_expiry_returns_to_idle msecs_to_jiffies e1 e2 d st :
  idle st ->
  (let st' := run_input_boost_rem e2
                (run_input_boost_work msecs_to_jiffies e1 st) in
   idle st' /\ sync_info st' = sync_info st)
  /\ (let st' := run_input_boost_rem e2
                   (input_boost_max_kick msecs_to_jiffies e1 d st) in
      idle st' /\ sync_info st' = sync_info st).
Proof.
  intros (Hfloors & Hrem & Hmax).
  unfold run_input_boost_rem, run_input_boost_work.
  rewrite !do_input_boost_rem_eq, do_input_boost_eq, input_boost_max_kick_eq.
  simpl. rewrite Hmax. simpl.
  unfold idle, all_floors. simpl.
  rewrite !with_floors_zero_id by done.
  repeat split; done.
Qed.

Lemma boost_then_expiry_returns_to_idle_witness :
  (let st' := run_input_boost_rem env10
                (run_input_boost_work (fun m => m) env0 (idle_state 8 false)) in
   idle st' /\ sync_info st' = sync_info (idle_state 8 false))
  /\ (let st' := run_input_boost_rem env10
                   (input_boost_max_kick (fun m => m) env0 5000
                      (idle_state 8 false)) in
      idle st' /\ sync_info st' = sync_info (idle_state 8 false)).
Proof.
  apply (boost_then_expiry_returns_to_idle (fun m => m) env0 env10 5000
           (idle_state 8 false)).
  repeat split. apply idle_state_floors.
Defined.

(** ** The whole driver *)

Lemma idle_state_cpus nr bias : cpu <$> sync_info (idle_state nr bias) = seq 0 nr.
Proof.
  apply list_eq. intros i. simpl.
  rewrite list_lookup_fmap, list_lookup_imap.
  destruct (decide (i < nr)%nat) as [Hi|Hi].
  - rewrite lookup_replicate_2 by done. simpl.
    by rewrite lookup_seq_lt.
  - rewrite lookup_ge_None_2 by (rewrite length_replicate; lia). simpl.
    by rewrite lookup_seq_ge by lia.
Qed.

Lemma driver_invariant_frame nr st st' :
  sync_info st' = sync_info st ->
  input_boost_rem st' = input_boost_rem st ->
  max_boost_active st' = max_boost_active st ->
  driver_invariant nr st -> driver_invariant nr st'.
Proof.
  unfold driver_invariant, boost_invariant, expiry_pending, some_floor_set,
    all_floors.
  by intros -> -> ->.
Qed.

Lemma driver_invariant_nr_cpus nr st :
  (0 < nr)%nat -> driver_invariant nr st -> (0 < nr_cpus st)%nat.
Proof.
  intros Hnr (Hcpus & _). unfold nr_cpus.
  apply (f_equal length) in Hcpus.
  rewrite length_fmap, length_seq in Hcpus. lia.
Qed.

Section Whole_driver.

Variable msecs_to_jiffies : Z -> Z.

Lemma exec_driver_invariant nr e en st :
  (0 < nr)%nat -> driver_invariant nr st ->
  driver_invariant nr (exec msecs_to_jiffies e en st).
Proof.
  intros Hnr Hinv.
  pose proof (driver_invariant_nr_cpus nr st Hnr Hinv) as Hpos.
  destruct en as [| |d| |]; unfold exec.
  - apply (driver_invariant_frame nr st); [..|done];
      rewrite cpuboost_input_event_eq; by destruct (input_boost_work st).
  - apply (driver_invariant_frame nr st); [..|done];
      rewrite mdss_boost_kick_eq; by destruct (_ || _).
  - destruct Hinv as (Hcpus & _).
    rewrite input_boost_max_kick_eq.
    split; [simpl; by rewrite with_floors_cpu |].
    split; [|intros _; by eexists].
    split.
    + unfold expiry_pending, some_floor_set. simpl. split.
      * intros _. by apply with_floors_Exists.
      * intros _. by eexists.
    + intros _. apply with_floors_const_Forall.
  - unfold run_input_boost_work.
    destruct (max_boost_active st) eqn:Hmax.
    + apply (driver_invariant_frame nr st); [..|done];
        rewrite do_input_boost_eq; simpl; by rewrite Hmax.
    + destruct Hinv as (Hcpus & Hinv & _).
      split; [|split].
      * rewrite do_input_boost_eq. simpl. rewrite Hmax. simpl.
        by rewrite with_floors_cpu.
      * by apply do_input_boost_invariant.
      * rewrite do_input_boost_eq. simpl. rewrite Hmax. simpl.
        intros _. by eexists.
  - destruct Hinv as (Hcpus & _).
    split; [|split].
    + unfold run_input_boost_rem. rewrite do_input_boost_rem_eq. simpl.
      by rewrite with_floors_cpu.
    + apply run_input_boost_rem_invariant.
    + unfold run_input_boost_rem. rewrite do_input_boost_rem_eq. discriminate.
Qed.

(** X6: on a machine with at least one possible CPU, after any sequence of
    input events, kicks, strong-boost requests and runs of the two work items
    from IDLE: the per-CPU records are still numbered 0, 1, ... in order, the
    expiry is pending exactly when some CPU has a non-zero floor, and
    max_boost_active set means that every floor is UINT_MAX and that the
    expiry which will clear the flag is pending. *)
Theorem driver_invariant_holds nr bias l :
  (0 < nr)%nat ->
  let st := run msecs_to_jiffies l (idle_state nr bias) in
  cpu <$> sync_info st = seq 0 nr
  /\ (expiry_pending st <-> some_floor_set st)
  /\ (max_boost_active st = true -> all_floors UINT_MAX st /\ expiry_pending st).
Proof.
  intros Hnr.
  assert (Hidle : driver_invariant nr (idle_state nr bias)).
  { split; [apply idle_state_cpus |].
    split; [apply idle_state_invariant | discriminate]. }
  revert Hidle. generalize (idle_state nr bias) as st0.
  induction l as [|[e en] l IH]; intros st0 Hinv; simpl.
  - destruct Hinv as (Hcpus & [Hiff Hstrong] & Hpend). auto.
  - apply IH. by apply exec_driver_invariant.
Qed.

Lemma exec_max_boost_active e en st :
  max_boost_active (exec msecs_to_jiffies e en st)
  = match en with
    | Input_boost_max_kick _ => true
    | Work_input_boost_rem => false
    | _ => max_boost_active st
    end.
Proof.
  destruct en as [| |d| |]; unfold exec.
  - rewrite cpuboost_input_event_eq. by destruct (input_boost_work st).
  - rewrite mdss_boost_kick_eq. by destruct (_ || _).
  - by rewrite input_boost_max_kick_eq.
  - unfold run_input_boost_work. rewrite do_input_boost_eq. simpl.
    destruct (max_boost_active st) eqn:Hmax; simpl; by rewrite ?Hmax.
  - unfold run_input_boost_rem. by rewrite do_input_boost_rem_eq.
Qed.

(** X7: max_boost_active is set by a strong-boost request and cleared by the
    run of the expiry, and by nothing else: after any sequence of entries it
    is set exactly when the last strong-boost request of the sequence comes
    after the last run of the expiry (or, with neither in the sequence, when
    it was set before). *)
Theorem max_boost_active_follows_strong_requests l st :
  max_boost_active (run msecs_to_jiffies l st)
  = strong_after (max_boost_active st) l.
Proof.
  revert st. induction l as [|[e en] l IH]; intros st; simpl; [done |].
  rewrite IH, exec_max_boost_active. by destruct en.
Qed.

Lemma updates_of_online (cpus : list nat) :
  updates_of (Call_cpufreq_update_policy <$> cpus) = cpus.
Proof.
  induction cpus as [|i cpus IH]; [done |].
  change (updates_of (Call_cpufreq_update_policy <$> i :: cpus))
    with (i :: updates_of (Call_cpufreq_update_policy <$> cpus)).
  by rewrite IH.
Qed.

Lemma updates_of_app cs cs' :
  updates_of (cs ++ cs') = updates_of cs ++ updates_of cs'.
Proof. apply omap_app. Qed.

Lemma updates_of_boost (cpus : list nat) d :
  updates_of (Call_cancel_delayed_work_sync
              :: (Call_cpufreq_update_policy <$> cpus)
              ++ [Call_queue_delayed_work d])
  = cpus.
Proof.
  change (Call_cancel_delayed_work_sync
          :: (Call_cpufreq_update_policy <$> cpus)
          ++ [Call_queue_delayed_work d])
    with ([Call_cancel_delayed_work_sync]
          ++ (Call_cpufreq_update_policy <$> cpus)
          ++ [Call_queue_delayed_work d]).
  rewrite !updates_of_app, updates_of_online.
  unfold updates_of. simpl. by rewrite app_nil_r.
Qed.

Lemma exec_requests e en st :
  exists cs,
    calls (exec msecs_to_jiffies e en st) = calls st ++ cs
    /\ updates_of cs = requested_cpus e en st.
Proof.
  destruct en as [| |d| |]; unfold exec, requested_cpus.
  - rewrite cpuboost_input_event_eq.
    destruct (input_boost_work st); simpl.
    + exists []. by rewrite app_nil_r.
    + by exists [Call_queue_work].
  - rewrite mdss_boost_kick_eq.
    destruct (_ || _); simpl.
    + exists []. by rewrite app_nil_r.
    + by exists [Call_queue_work].
  - rewrite input_boost_max_kick_eq. simpl.
    eexists. split; [reflexivity | apply updates_of_boost].
  - unfold run_input_boost_work. rewrite do_input_boost_eq. simpl.
    destruct (max_boost_active st); simpl.
    + exists []. by rewrite app_nil_r.
    + eexists. split; [reflexivity | apply updates_of_boost].
  - unfold run_input_boost_rem. rewrite do_input_boost_rem_eq. simpl.
    eexists. split; [reflexivity | apply updates_of_online].
Qed.

Lemma run_requests l st :
  updates_of (calls (run msecs_to_jiffies l st))
  = updates_of (calls st) ++ requests msecs_to_jiffies l st.
Proof.
  revert st. induction l as [|[e en] l IH]; intros st; simpl.
  - by rewrite app_nil_r.
  - change (foldl (fun st x => exec msecs_to_jiffies (fst x) (snd x) st)
                  (exec msecs_to_jiffies e en st) l)
      with (run msecs_to_jiffies l (exec msecs_to_jiffies e en st)).
    rewrite IH.
    destruct (exec_requests e en st) as (cs & -> & <-).
    by rewrite updates_of_app, app_assoc.
Qed.

(** X8: the driver asks for policy re-evaluation of the CPUs that are online
    at the time it asks, and of no other.  The calls one entry adds request
    re-evaluation exactly for the CPUs of the online mask that entry finds,
    once each and in the order of the mask, when the entry is a strong-boost
    request, a run of the expiry or a weak activation that is not suppressed,
    and for no CPU otherwise; the requests logged over a sequence of entries
    are these, entry by entry.  A possible CPU that is not online at the time
    gets its floor from each routine all the same. *)
Theorem policy_updates_for_cpus_online_at_request :
  (forall e en st,
      exists cs,
        calls (exec msecs_to_jiffies e en st) = calls st ++ cs
        /\ updates_of cs = requested_cpus e en st
        /\ forall i, i ∈ updates_of cs -> i ∈ cpu_online_mask e)
  /\ (forall l st,
         updates_of (calls (run msecs_to_jiffies l st))
         = updates_of (calls st) ++ requests msecs_to_jiffies l st)
  /\ (forall e d st i s,
         sync_info st !! i = Some s -> i ∉ cpu_online_mask e ->
         sync_info (input_boost_max_kick msecs_to_jiffies e d st) !! i
         = Some (mk_cpu_sync (cpu s) UINT_MAX)
         /\ sync_info (do_input_boost_rem e st) !! i
            = Some (mk_cpu_sync (cpu s) 0)
         /\ (max_boost_active st = false ->
             sync_info (do_input_boost msecs_to_jiffies e st) !! i
             = Some (mk_cpu_sync (cpu s) (weak_tier i)))).
Proof.
  split; [|split].
  - intros e en st. destruct (exec_requests e en st) as (cs & Hcs & Hup).
    exists cs. split; [done |]. split; [done |].
    rewrite Hup. intros i. unfold requested_cpus.
    destruct en; try destruct (max_boost_active st); set_solver.
  - apply run_requests.
  - intros e d st i s Hs _.
    rewrite input_boost_max_kick_eq, do_input_boost_rem_eq, do_input_boost_eq.
    simpl. rewrite !with_floors_lookup, Hs. simpl.
    split; [done |]. split; [done |].
    intros ->. simpl. by rewrite with_floors_lookup, Hs.
Qed.

End Whole_driver.

Lemma driver_invariant_holds_witness :
  let st := run (fun m => m)
              [(env0, Input_event); (env0, Work_input_boost);
               (env10, Input_boost_max_kick 5000)] (idle_state 8 false) in
  cpu <$> sync_info st = seq 0 8
  /\ (expiry_pending st <-> some_floor_set st)
  /\ (max_boost_active st = true -> all_floors UINT_MAX st /\ expiry_pending st).
Proof.
  apply (driver_invariant_holds (fun m => m) 8 false
           [(env0, Input_event); (env0, Work_input_boost);
            (env10, Input_boost_max_kick 5000)]).
  lia.
Defined.

(** ** The hook, once more *)

(** X9: the hook is idempotent: the limits it returns on CPUFREQ_ADJUST are
    limits it returns unchanged when they are proposed again, whatever the
    floor of the CPU, so that a further policy evaluation in the same boost
    state settles at once; and they are in range, with min <= max whenever a
    floor is set. *)
Theorem boost_adjust_notify_idempotent st p s p' :
  sync_info st !! policy_cpu p = Some s ->
  is_uint (policy_min p) -> is_uint (policy_max p) ->
  boost_adjust_notify st CPUFREQ_ADJUST p = Some (NOTIFY_OK, p') ->
  boost_adjust_notify st CPUFREQ_ADJUST p' = Some (NOTIFY_OK, p')
  /\ is_uint (policy_min p') /\ is_uint (policy_max p')
  /\ (input_boost_min s <> 0 -> policy_min p' <= policy_max p').
Proof.
  intros Hs Hmn Hmx Hp'.
  destruct (decide (input_boost_min s = 0)) as [H0|Hne].
  - rewrite (boost_adjust_notify_no_floor st p s) in Hp' by done.
    injection Hp' as <-.
    rewrite (boost_adjust_notify_no_floor st p s) by done. done.
  - rewrite (boost_adjust_notify_floor st p s) in Hp' by done.
    injection Hp' as <-.
    pose proof (effective_min_le (input_boost_min s) (policy_max p)) as Hle.
    unfold is_uint in *.
    rewrite (boost_adjust_notify_floor st _ s);
      [ | done | done | unfold is_uint; simpl; lia | unfold is_uint; simpl; lia ].
    simpl. split; [|lia].
    do 3 f_equal. lia.
Qed.

Lemma boost_adjust_notify_idempotent_witness :
  boost_adjust_notify weak_boosted CPUFREQ_ADJUST (mk_policy 2 1113600 2000000)
  = Some (NOTIFY_OK, mk_policy 2 1113600 2000000)
  /\ is_uint 1113600 /\ is_uint 2000000
  /\ (1113600 <> 0 -> 1113600 <= 2000000).
Proof.
  apply (boost_adjust_notify_idempotent weak_boosted proposal
           (mk_cpu_sync 2 1113600) (mk_policy 2 1113600 2000000)).
  - reflexivity.
  - unfold is_uint, UINT_MAX; simpl; lia.
  - unfold is_uint, UINT_MAX; simpl; lia.
  - reflexivity.
Defined.

(** X10: what a floor does to a proposal with min <= max.  A floor at or above
    the proposed maximum, the strong boost's UINT_MAX among them, pins the
    minimum to the maximum; a floor below the maximum raises the minimum to
    the floor when it was lower; and a proposal whose minimum is already at
    or above the floor comes back as it is. *)
Theorem boost_adjust_notify_cases st p s :
  sync_info st !! policy_cpu p = Some s ->
  is_uint (policy_min p) -> is_uint (policy_max p) ->
  policy_min p <= policy_max p ->
  input_boost_min s <> 0 ->
  (policy_max p <= input_boost_min s ->
   boost_adjust_notify st CPUFREQ_ADJUST p
   = Some (NOTIFY_OK, mk_policy (policy_cpu p) (policy_max p) (policy_max p)))
  /\ (input_boost_min s < policy_max p ->
      boost_adjust_notify st CPUFREQ_ADJUST p
      = Some (NOTIFY_OK,
              mk_policy (policy_cpu p)
                (Z.max (policy_min p) (input_boost_min s)) (policy_max p)))
  /\ (input_boost_min s <= policy_min p ->
      boost_adjust_notify st CPUFREQ_ADJUST p = Some (NOTIFY_OK, p)).
Proof.
  intros Hs Hmn Hmx Hle Hne.
  rewrite (boost_adjust_notify_floor st p s) by done.
  unfold effective_min, is_uint in *.
  destruct p as [c mn mx]; simpl in *.
  split; [|split]; intros Hc.
  - replace (Z.min (Z.max mn (Z.min (if input_boost_min s =? UINT_MAX
                                     then mx else input_boost_min s) mx)) mx)
      with mx; [done |].
    destruct (input_boost_min s =? UINT_MAX); lia.
  - replace (Z.min (Z.max mn (Z.min (if input_boost_min s =? UINT_MAX
                                     then mx else input_boost_min s) mx)) mx)
      with (Z.max mn (input_boost_min s)); [done |].
    destruct (Z.eqb_spec (input_boost_min s) UINT_MAX); lia.
  - replace (Z.min (Z.max mn (Z.min (if input_boost_min s =? UINT_MAX
                                     then mx else input_boost_min s) mx)) mx)
      with mn; [done |].
    destruct (Z.eqb_spec (input_boost_min s) UINT_MAX); lia.
Qed.

(** A CPU whose proposed maximum is below the weak tier. *)
Lemma boost_adjust_notify_cases_witness :
  boost_adjust_notify weak_boosted CPUFREQ_ADJUST (mk_policy 5 300000 800000)
  = Some (NOTIFY_OK, mk_policy 5 800000 800000).
Proof.
  apply (boost_adjust_notify_cases weak_boosted (mk_policy 5 300000 800000)
           (mk_cpu_sync 5 1113600)).
  - reflexivity.
  - unfold is_uint, UINT_MAX; simpl; lia.
  - unfold is_uint, UINT_MAX; simpl; lia.
  - simpl; lia.
  - simpl; lia.
  - simpl; lia.
Defined.

(** X11: what the policy authority gets from the hook after each routine, for
    every possible CPU and every proposal with min <= max: after a strong
    boost request the minimum is the proposed maximum; after a weak activation
    that was not suppressed it is the larger of the proposed minimum and
    min(1113600, max); after the expiry the proposal comes back unchanged. *)
Theorem hook_after_each_routine msecs_to_jiffies e d st p :
  (policy_cpu p < nr_cpus st)%nat ->
  is_uint (policy_min p) -> is_uint (policy_max p) ->
  policy_min p <= policy_max p ->
  boost_adjust_notify (input_boost_max_kick msecs_to_jiffies e d st)
    CPUFREQ_ADJUST p
  = Some (NOTIFY_OK, mk_policy (policy_cpu p) (policy_max p) (policy_max p))
  /\ (max_boost_active st = false ->
      boost_adjust_notify (do_input_boost msecs_to_jiffies e st)
        CPUFREQ_ADJUST p
      = Some (NOTIFY_OK,
              mk_policy (policy_cpu p)
                (Z.max (policy_min p) (Z.min 1113600 (policy_max p)))
                (policy_max p)))
  /\ boost_adjust_notify (do_input_boost_rem e st) CPUFREQ_ADJUST p
     = Some (NOTIFY_OK, p).
Proof.
  intros Hcpu Hmn Hmx Hle.
  destruct (lookup_lt_is_Some_2 (sync_info st) (policy_cpu p) Hcpu) as [s Hs].
  split; [|split].
  - rewrite input_boost_max_kick_eq.
    rewrite (boost_adjust_notify_floor _ p (mk_cpu_sync (cpu s) UINT_MAX));
      [ | simpl; by rewrite with_floors_lookup, Hs | done | done | done ].
    unfold effective_min, is_uint in *. simpl.
    replace (Z.min (Z.max (policy_min p)
                      (Z.min (policy_max p) (policy_max p))) (policy_max p))
      with (policy_max p) by lia.
    done.
  - intros Hmax. rewrite do_input_boost_eq, Hmax.
    rewrite (boost_adjust_notify_floor _ p
               (mk_cpu_sync (cpu s) (weak_tier (policy_cpu p))));
      [ | simpl; by rewrite with_floors_lookup, Hs
        | apply weak_tier_nonzero | done | done ].
    assert (Htier : weak_tier (policy_cpu p) = 1113600).
    { unfold weak_tier. by destruct (policy_cpu p <? 4)%nat. }
    unfold effective_min, is_uint in *. simpl. rewrite Htier. simpl.
    replace (Z.min (Z.max (policy_min p) (Z.min 1113600 (policy_max p)))
                   (policy_max p))
      with (Z.max (policy_min p) (Z.min 1113600 (policy_max p))) by lia.
    done.
  - rewrite do_input_boost_rem_eq.
    apply (boost_adjust_notify_no_floor _ p (mk_cpu_sync (cpu s) 0)); [|done].
    simpl. by rewrite with_floors_lookup, Hs.
Qed.

Lemma hook_after_each_routine_witness :
  boost_adjust_notify (input_boost_max_kick (fun m => m) env0 5000 weak_boosted)
    CPUFREQ_ADJUST proposal
  = Some (NOTIFY_OK, mk_policy 2 2000000 2000000).
Proof.
  apply (hook_after_each_routine (fun m => m) env0 5000 weak_boosted proposal).
  - vm_compute. lia.
  - unfold is_uint, UINT_MAX; simpl; lia.
  - unfold is_uint, UINT_MAX; simpl; lia.
  - simpl. lia.
Defined.

(** ** Staleness across the wrap of the tick counter *)

Lemma time_after_elapsed j l t :
  0 <= j < 2 ^ 64 -> 0 <= l < 2 ^ 64 -> 0 <= t < 2 ^ 63 ->
  time_after j (ulong (l + t)) = true
  <-> t < ulong (j - l) <= t + 2 ^ 63.
Proof.
  unfold time_after, long, ulong, BITS_PER_LONG.
  change (2 ^ (64 - 1)) with 9223372036854775808.
  change (2 ^ 64) with 18446744073709551616.
  change (2 ^ 63) with 9223372036854775808.
  intros Hj Hl Ht. cbv zeta.
  rewrite Z.ltb_lt.
  destruct (Z.ltb_spec
              (((l + t) mod 18446744073709551616 - j) mod 18446744073709551616)
              9223372036854775808);
    Z.div_mod_to_equations; lia.
Qed.

(** X12: the staleness test of the kick works on the ticks elapsed since the
    last input event counted modulo 2^64, so it is not fooled by the tick
    counter wrapping around between the event and the kick: with a window of
    t ticks, t below 2^63, the kick is dropped as stale exactly when more than
    t and at most t + 2^63 ticks have elapsed; with nothing pending it is
    queued when at most t ticks have elapsed. *)
Theorem mdss_boost_kick_stale_iff_elapsed msecs_to_jiffies e st :
  0 <= jiffies e < 2 ^ 64 -> 0 <= last_input_time st < 2 ^ 64 ->
  0 <= msecs_to_jiffies MDSS_TIMEOUT < 2 ^ 63 ->
  let t := msecs_to_jiffies MDSS_TIMEOUT in
  (time_after (jiffies e) (ulong (last_input_time st + t)) = true
   <-> t < elapsed e st <= t + 2 ^ 63)
  /\ (t < elapsed e st <= t + 2 ^ 63 ->
      mdss_boost_kick msecs_to_jiffies e st = st)
  /\ (work_pending st = false -> elapsed e st <= t ->
      input_boost_work (mdss_boost_kick msecs_to_jiffies e st) = true
      /\ calls (mdss_boost_kick msecs_to_jiffies e st)
         = calls st ++ [Call_queue_work]).
Proof.
  intros Hj Hl Ht t.
  pose proof (time_after_elapsed (jiffies e) (last_input_time st) t Hj Hl Ht)
    as Hiff.
  fold (elapsed e st) in Hiff.
  split; [exact Hiff |]. split.
  - intros Hstale. rewrite mdss_boost_kick_eq. fold t.
    apply Hiff in Hstale. by rewrite Hstale, orb_true_r.
  - intros Hp Hfresh. rewrite mdss_boost_kick_eq. fold t.
    destruct (time_after (jiffies e) (ulong (last_input_time st + t))) eqn:Ha.
    + destruct Hiff as [Hto _]. specialize (Hto eq_refl). lia.
    + by rewrite Hp.
Qed.

Lemma mdss_boost_kick_stale_iff_elapsed_witness :
  input_boost_work (mdss_boost_kick (fun m => m) env_wrapped before_wrap) = true
  /\ calls (mdss_boost_kick (fun m => m) env_wrapped before_wrap)
     = calls before_wrap ++ [Call_queue_work].
Proof.
  apply (mdss_boost_kick_stale_iff_elapsed (fun m => m) env_wrapped before_wrap).
  - vm_compute. split; [discriminate | reflexivity].
  - vm_compute. split; [discriminate | reflexivity].
  - vm_compute. split; [discriminate | reflexivity].
  - reflexivity.
  - vm_compute. discriminate.
Defined.

(** ** Successful initialisation *)

(** X13: when the work queue can be created, cpu_boost_init numbers the
    per-CPU records by CPU, keeps their floors, leaves both work items not
    pending, and returns what input_register_handler returned, the input
    handler being registered exactly when that is 0.  The result of
    cpufreq_register_notifier is not looked at: the function returns 0 also
    when the policy notifier could not be registered. *)
Theorem cpu_boost_init_success ie st :
  alloc_workqueue_ok ie = true ->
  exists st',
    cpu_boost_init ie boot_registry st
    = (input_register_handler_ret ie,
       mk_registry true (cpufreq_register_notifier_ret ie =? 0)
                   (input_register_handler_ret ie =? 0),
       st')
    /\ cpu <$> sync_info st' = seq 0 (nr_cpus st)
    /\ input_boost_min <$> sync_info st' = input_boost_min <$> sync_info st
    /\ input_boost_work st' = false
    /\ input_boost_rem st' = None
    /\ max_boost_active st' = max_boost_active st
    /\ (input_register_handler_ret ie = 0 ->
        cpufreq_register_notifier_ret ie <> 0 ->
        fst (fst (cpu_boost_init ie boot_registry st)) = 0
        /\ boost_adjust_nb_registered
             (snd (fst (cpu_boost_init ie boot_registry st))) = false).
Proof.
  intros Hwq. rewrite cpu_boost_init_eq, Hwq. simpl.
  eexists. split; [reflexivity |]. simpl.
  split; [|split].
  - apply list_eq. intros i. unfold nr_cpus.
    rewrite list_lookup_fmap, list_lookup_imap.
    destruct (sync_info st !! i) as [s|] eqn:Hs; simpl.
    + rewrite lookup_seq_lt; [done |]. by apply lookup_lt_Some in Hs.
    + rewrite lookup_seq_ge; [done |]. by apply lookup_ge_None in Hs.
  - apply list_eq. intros i.
    rewrite !list_lookup_fmap, list_lookup_imap.
    by destruct (sync_info st !! i).
  - repeat split; try done.
    by destruct (Z.eqb_spec (cpufreq_register_notifier_ret ie) 0).
Qed.

Lemma cpu_boost_init_success_witness :
  exists st',
    cpu_boost_init init_no_notifier boot_registry (boot_state 8 false)
    = (0, mk_registry true false true, st')
    /\ cpu <$> sync_info st' = seq 0 8
    /\ input_boost_min <$> sync_info st'
       = input_boost_min <$> sync_info (boot_state 8 false)
    /\ input_boost_work st' = false
    /\ input_boost_rem st' = None
    /\ max_boost_active st' = false
    /\ (0 = 0 -> -22 <> 0 ->
        fst (fst (cpu_boost_init init_no_notifier boot_registry
                    (boot_state 8 false))) = 0
        /\ boost_adjust_nb_registered
             (snd (fst (cpu_boost_init init_no_notifier boot_registry
                          (boot_state 8 false)))) = false).
Proof.
  apply (cpu_boost_init_success init_no_notifier (boot_state 8 false)).
  reflexivity.
Defined.

(** ** From trigger to boost *)

(** X14: with no strong boost active, an input event followed by a run of the
    weak activation always ends in a weak boost, whether the event queued the
    activation itself or found one pending: every possible CPU has its tier,
    the expiry is armed for 150 ms after the run, last_input_time is the time
    of the event, and no activation is left pending.  A kick does the same,
    without touching last_input_time, when it is not dropped. *)
Theorem trigger_then_worker_boosts msecs_to_jiffies e e' st :
  max_boost_active st = false ->
  (let st' := run msecs_to_jiffies
                [(e, Input_event); (e', Work_input_boost)] st in
   sync_info st' = with_floors weak_tier (sync_info st)
   /\ input_boost_rem st'
      = Some (ulong (jiffies e' + msecs_to_jiffies IB_DURATION))
   /\ last_input_time st' = jiffies e
   /\ input_boost_work st' = false
   /\ max_boost_active st' = false)
  /\ (mdss_boost_kick msecs_to_jiffies e st <> st ->
      let st' := run msecs_to_jiffies
                   [(e, Mdss_boost_kick); (e', Work_input_boost)] st in
      sync_info st' = with_floors weak_tier (sync_info st)
      /\ input_boost_rem st'
         = Some (ulong (jiffies e' + msecs_to_jiffies IB_DURATION))
      /\ last_input_time st' = last_input_time st
      /\ input_boost_work st' = false
      /\ max_boost_active st' = false).
Proof.
  intros Hmax. split.
  - unfold run. simpl. unfold run_input_boost_work.
    rewrite do_input_boost_eq, cpuboost_input_event_eq.
    destruct (input_boost_work st); simpl; rewrite Hmax; simpl; done.
  - unfold run. simpl. unfold run_input_boost_work.
    rewrite do_input_boost_eq, mdss_boost_kick_eq.
    destruct (_ || _); [done |]. simpl. rewrite Hmax. simpl. done.
Qed.

Lemma trigger_then_worker_boosts_witness :
  let st' := run (fun m => m)
               [(env10, Input_event); (env10, Work_input_boost)] work_queued in
  sync_info st' = with_floors weak_tier (sync_info work_queued)
  /\ input_boost_rem st' = Some (ulong (jiffies env10 + IB_DURATION))
  /\ last_input_time st' = jiffies env10
  /\ input_boost_work st' = false
  /\ max_boost_active st' = false.
Proof.
  apply (trigger_then_worker_boosts (fun m => m) env10 env10 work_queued).
  reflexivity.
Defined.

(** ** Debouncing *)

Lemma queue_work_calls_app cs cs' :
  queue_work_calls (cs ++ cs') = (queue_work_calls cs + queue_work_calls cs')%nat.
Proof. unfold queue_work_calls. by rewrite List.filter_app, length_app. Qed.

Lemma queue_work_calls_updates (cpus : list nat) :
  queue_work_calls (Call_cpufreq_update_policy <$> cpus) = 0%nat.
Proof. induction cpus as [|i cpus IH]; [done | exact IH]. Qed.

Lemma queue_work_calls_boost cs d (cpus : list nat) :
  queue_work_calls
    (cs ++ Call_cancel_delayed_work_sync
        :: (Call_cpufreq_update_policy <$> cpus)
        ++ [Call_queue_delayed_work d])
  = queue_work_calls cs.
Proof.
  change (Call_cancel_delayed_work_sync
          :: (Call_cpufreq_update_policy <$> cpus)
          ++ [Call_queue_delayed_work d])
    with ([Call_cancel_delayed_work_sync]
          ++ (Call_cpufreq_update_policy <$> cpus)
          ++ [Call_queue_delayed_work d]).
  rewrite !queue_work_calls_app, queue_work_calls_updates.
  unfold queue_work_calls. simpl. lia.
Qed.

Section Debouncing.

Variable msecs_to_jiffies : Z -> Z.

Lemma exec_queue_work_calls e en st :
  (queue_work_calls (calls (exec msecs_to_jiffies e en st))
   + pending_activations st
   <= queue_work_calls (calls st)
      + pending_activations (exec msecs_to_jiffies e en st)
      + activation_runs [(e, en)])%nat.
Proof.
  unfold pending_activations.
  assert (Hruns : activation_runs [(e, en)]
                  = match en with Work_input_boost => 1 | _ => 0 end%nat)
    by (by destruct en).
  rewrite Hruns. clear Hruns.
  destruct en as [| |d| |]; unfold exec.
  - rewrite cpuboost_input_event_eq.
    destruct (input_boost_work st) eqn:Hp; simpl; rewrite ?Hp.
    + lia.
    + rewrite queue_work_calls_app. unfold queue_work_calls at 2. simpl. lia.
  - rewrite mdss_boost_kick_eq. unfold work_pending.
    destruct (input_boost_work st) eqn:Hp; simpl; rewrite ?Hp; [lia |].
    destruct (time_after _ _); simpl; rewrite ?Hp; [lia |].
    rewrite queue_work_calls_app. unfold queue_work_calls at 2. simpl. lia.
  - rewrite input_boost_max_kick_eq. simpl.
    rewrite queue_work_calls_boost. lia.
  - unfold run_input_boost_work. rewrite do_input_boost_eq. simpl.
    destruct (max_boost_active st); simpl.
    + destruct (input_boost_work st); lia.
    + rewrite queue_work_calls_boost. destruct (input_boost_work st); lia.
  - unfold run_input_boost_rem. rewrite do_input_boost_rem_eq. simpl.
    rewrite queue_work_calls_app, queue_work_calls_updates. lia.
Qed.

Lemma run_queue_work_calls l st :
  (queue_work_calls (calls (run msecs_to_jiffies l st)) + pending_activations st
   <= queue_work_calls (calls st)
      + pending_activations (run msecs_to_jiffies l st)
      + activation_runs l)%nat.
Proof.
  revert st. induction l as [|[e en] l IH]; intros st; [simpl; lia |].
  change (run msecs_to_jiffies ((e, en) :: l) st)
    with (run msecs_to_jiffies l (exec msecs_to_jiffies e en st)).
  pose proof (IH (exec msecs_to_jiffies e en st)) as Hl.
  pose proof (exec_queue_work_calls e en st) as He.
  assert (Hruns : activation_runs ((e, en) :: l)
                  = (activation_runs [(e, en)] + activation_runs l)%nat).
  { unfold activation_runs.
    change ((e, en) :: l) with ([(e, en)] ++ l).
    by rewrite List.filter_app, length_app. }
  lia.
Qed.

(** X15: triggers are debounced, not queued: however many input events and
    kicks arrive, the weak activation is queued at most once more than the
    worker has run it.  Over any sequence of entries, the queue_work calls
    made exceed the runs of the activation by at most one, the one that is
    still pending at the end. *)
Theorem weak_activation_queued_once_per_run nr bias l :
  let st := run msecs_to_jiffies l (idle_state nr bias) in
  (queue_work_calls (calls st)
   <= activation_runs l + pending_activations st)%nat
  /\ (queue_work_calls (calls st) <= activation_runs l + 1)%nat.
Proof.
  pose proof (run_queue_work_calls l (idle_state nr bias)) as H.
  simpl in *. unfold pending_activations in *.
  change (queue_work_calls []) with 0%nat in H.
  destruct (input_boost_work (run msecs_to_jiffies l (idle_state nr bias)));
    lia.
Qed.

End Debouncing.
